(** * Xilinx AXI DMA driver: device-tree channel discovery and character device

    A shallow embedding of [axidma_of.c] (the device-tree parser that fills
    the channel table of [struct axidma_device]) and of the file operations
    of [axidma_chrdev.c] (open / release / mmap), with the properties of the
    control-plane specification stated over them.

    Layout: the types of [axidma.h] the two files touch, a model of the part
    of the Linux kernel interface they call (errno values, the OF accessors,
    the memory-mapping services), the embedded functions, and then the
    theorems. *)

From Stdlib Require Import ZArith String List Lia.
From stdpp Require Import base numbers list strings gmap.

Local Open Scope Z_scope.

(** ** Kernel constants *)

(** errno values of [include/uapi/asm-generic/errno-base.h] and [errno.h];
    the kernel headers are not part of the driver's sources. *)
Definition EPERM : Z := 1.
Definition EBADF : Z := 9.
Definition ENOENT : Z := 2.
Definition EINVAL : Z := 22.
Definition ENODATA : Z := 61.
Definition EILSEQ : Z := 84.

(** [O_EXCL] of [include/uapi/asm-generic/fcntl.h] (octal 0200). *)
Definition O_EXCL : Z := 128.

(** Range of the C type [int]. *)
Definition INT_MAX : Z := 2147483647.

(** Conversion of a [u32] cell to [int], as [channel = phandle_args.args[0]]
    does: the value is reduced modulo 2^32 into the signed range. *)
Definition u32_to_int (a : Z) : Z := (a + 2 ^ 31) mod 2 ^ 32 - 2 ^ 31.

(** ** The types of [axidma.h] used by the two files *)
Module Axidma.

(** Modelled from the spec: [axidma.h], which declares the enumerations and
    structures below, is not among the sources. The enumerations are the
    engine types and directions of the specification's channel descriptor,
    under the names the code uses for them ([AXIDMA_WRITE] is the direction
    to the device, [AXIDMA_READ] from the device); the records carry the
    fields the two files read or write, under the names the code uses. *)
Inductive axidma_type := AXIDMA_DMA | AXIDMA_VDMA.
Inductive axidma_dir := AXIDMA_WRITE | AXIDMA_READ.

Record axidma_chan := {
  dir : axidma_dir;
  type : axidma_type;
  channel_id : Z
}.

Record axidma_device := {
  num_dma_tx_chans : Z;
  num_dma_rx_chans : Z;
  num_vdma_tx_chans : Z;
  num_vdma_rx_chans : Z;
  num_chans : Z;
  channels : list axidma_chan;    (* [struct axidma_chan *channels] *)
  dma_base_vaddr : Z              (* [void *dma_base_vaddr] *)
}.

#[global] Instance axidma_type_eq_dec : EqDecision axidma_type.
Proof. solve_decision. Defined.
#[global] Instance axidma_dir_eq_dec : EqDecision axidma_dir.
Proof. solve_decision. Defined.

(** Field updates, one per assignment form found in the code. *)
Definition set_num_dma_tx_chans (v : Z) (d : axidma_device) : axidma_device :=
  {| num_dma_tx_chans := v; num_dma_rx_chans := num_dma_rx_chans d;
     num_vdma_tx_chans := num_vdma_tx_chans d;
     num_vdma_rx_chans := num_vdma_rx_chans d;
     num_chans := num_chans d; channels := channels d;
     dma_base_vaddr := dma_base_vaddr d |}.

Definition set_num_dma_rx_chans (v : Z) (d : axidma_device) : axidma_device :=
  {| num_dma_tx_chans := num_dma_tx_chans d; num_dma_rx_chans := v;
     num_vdma_tx_chans := num_vdma_tx_chans d;
     num_vdma_rx_chans := num_vdma_rx_chans d;
     num_chans := num_chans d; channels := channels d;
     dma_base_vaddr := dma_base_vaddr d |}.

Definition set_num_vdma_tx_chans (v : Z) (d : axidma_device) : axidma_device :=
  {| num_dma_tx_chans := num_dma_tx_chans d;
     num_dma_rx_chans := num_dma_rx_chans d;
     num_vdma_tx_chans := v;
     num_vdma_rx_chans := num_vdma_rx_chans d;
     num_chans := num_chans d; channels := channels d;
     dma_base_vaddr := dma_base_vaddr d |}.

Definition set_num_vdma_rx_chans (v : Z) (d : axidma_device) : axidma_device :=
  {| num_dma_tx_chans := num_dma_tx_chans d;
     num_dma_rx_chans := num_dma_rx_chans d;
     num_vdma_tx_chans := num_vdma_tx_chans d;
     num_vdma_rx_chans := v;
     num_chans := num_chans d; channels := channels d;
     dma_base_vaddr := dma_base_vaddr d |}.

Definition set_channels (cs : list axidma_chan) (d : axidma_device)
  : axidma_device :=
  {| num_dma_tx_chans := num_dma_tx_chans d;
     num_dma_rx_chans := num_dma_rx_chans d;
     num_vdma_tx_chans := num_vdma_tx_chans d;
     num_vdma_rx_chans := num_vdma_rx_chans d;
     num_chans := num_chans d; channels := cs;
     dma_base_vaddr := dma_base_vaddr d |}.

Definition set_type (t : axidma_type) (c : axidma_chan) : axidma_chan :=
  {| dir := dir c; type := t; channel_id := channel_id c |}.

Definition set_dir (r : axidma_dir) (c : axidma_chan) : axidma_chan :=
  {| dir := r; type := type c; channel_id := channel_id c |}.

Definition set_channel_id (i : Z) (c : axidma_chan) : axidma_chan :=
  {| dir := dir c; type := type c; channel_id := i |}.

End Axidma.
Export Axidma.

(** ** The character device: [axidma_chrdev.c] *)
Module Chrdev.

(** [struct file]: the open flags and the driver's private pointer
    ([None] is [NULL]). *)
Record file := {
  f_flags : Z;
  private_data : option axidma_device
}.

(** [axidma_open]. [capable_sys_admin] is the answer of
    [capable(CAP_SYS_ADMIN)] for the calling task and [axidma_dev] the
    file-scope pointer of the same name. The result is the return code and
    the file structure after the call. *)
Definition axidma_open (capable_sys_admin : bool)
    (axidma_dev : option axidma_device) (f : file) : Z * file :=
  if negb capable_sys_admin then (- EPERM, f)
  else if Z.land (f_flags f) O_EXCL =? 0 then (- EINVAL, f)
  else (0, {| f_flags := f_flags f; private_data := axidma_dev |}).

(** [axidma_release]. *)
Definition axidma_release (f : file) : Z * file :=
  (0, {| f_flags := f_flags f; private_data := None |}).

(** [struct vm_area_struct], the fields [axidma_mmap] touches and the
    page offset of the request. *)
Record vm_area_struct := {
  vm_start : Z;
  vm_end : Z;
  vm_pgoff : Z;
  vm_page_prot : Z
}.

Definition set_page_prot (p : Z) (vma : vm_area_struct) : vm_area_struct :=
  {| vm_start := vm_start vma; vm_end := vm_end vma;
     vm_pgoff := vm_pgoff vma; vm_page_prot := p |}.

(** The memory-management services [axidma_mmap] calls. They belong to the
    kernel and the architecture, so the driver code is parameterised by
    them. [remap_pfn_range vma addr pfn size prot] yields the [int] the
    kernel returns. *)
Class MemoryMapper := {
  BITS_PER_LONG : Z;
  PAGE_SHIFT : Z;
  pgprot_noncached : Z -> Z;
  virt_to_phys : Z -> Z;
  phys_to_pfn : Z -> Z;
  remap_pfn_range : vm_area_struct -> Z -> Z -> Z -> Z -> Z
}.

(** [axidma_mmap]. [None] stands for the dereference of a [NULL]
    [axidma_dev]; otherwise the return code and the vma after the call. *)
Definition axidma_mmap `{MemoryMapper} (axidma_dev : option axidma_device)
    (vma : vm_area_struct) : option (Z * vm_area_struct) :=
  let alloc_size := (vm_end vma - vm_start vma) mod 2 ^ BITS_PER_LONG in
  let vma := set_page_prot (pgprot_noncached (vm_page_prot vma)) vma in
  match axidma_dev with
  | None => None
  | Some dev =>
      let addr := dma_base_vaddr dev in
      let rc := remap_pfn_range vma (vm_start vma)
                  (phys_to_pfn (virt_to_phys addr)) alloc_size
                  (vm_page_prot vma) in
      if rc <? 0 then Some (rc, vma) else Some (0, vma)
  end.

(** *** The calls the VFS makes on the device node

    Every [open(2)] gets a fresh [struct file]; the structure is dropped
    again when [axidma_open] refuses it, and after [axidma_release]. *)
Record chrdev := {
  axidma_dev : option axidma_device;   (* the file-scope pointer *)
  files : gmap nat file                (* the open files of the device *)
}.

Inductive call :=
| Open (capable_sys_admin : bool) (flags : Z)
| Release (fd : nat).

(** [axidma_chrdev_init] stores the device pointer; no file is open. *)
Definition initialized (dev : axidma_device) : chrdev :=
  {| axidma_dev := Some dev; files := ∅ |}.

Definition vfs_call (s : chrdev) (c : call) : Z * chrdev :=
  match c with
  | Open cap flags =>
      let fd := fresh (dom (files s)) in
      let '(rc, f) := axidma_open cap (axidma_dev s)
                        {| f_flags := flags; private_data := None |} in
      if rc =? 0
      then (rc, {| axidma_dev := axidma_dev s;
                   files := <[fd := f]> (files s) |})
      else (rc, s)
  | Release fd =>
      match files s !! fd with
      | None => (- EBADF, s)
      | Some f =>
          let '(rc, _) := axidma_release f in
          (rc, {| axidma_dev := axidma_dev s;
                  files := delete fd (files s) |})
      end
  end.

Fixpoint run (s : chrdev) (cs : list call) : chrdev :=
  match cs with
  | [] => s
  | c :: cs => run (snd (vfs_call s c)) cs
  end.

(** A session is live for each open file that holds the device in its
    private data. *)
Definition has_session (f : file) : bool :=
  match private_data f with Some _ => true | None => false end.

Definition live_sessions (s : chrdev) : nat :=
  length (filter (fun kf => has_session (snd kf) = true)
                 (map_to_list (files s))).

End Chrdev.

(** ** The device tree and the OF accessors the parser calls

    A model of [struct device_node] and of the functions of [linux/of.h]
    used by [axidma_of.c]. They are kernel code, not driver code; the model
    keeps what the parser can observe through them. *)
Module OF.

(** One entry of a phandle list: the node the phandle resolves to ([None]
    for the empty phandle 0) and its argument cells ([u32] values). *)
Record phandle_entry (N : Type) := {
  ph_target : option N;
  ph_args : list Z
}.
Arguments ph_target {N} _.
Arguments ph_args {N} _.

(** A property, seen through the two decoders the parser uses on it.
    [prop_strings] is the value read as a list of NUL-terminated strings, or
    the errno the string accessors report ([-ENODATA], [-EILSEQ]).
    [prop_phandles] are the entries the phandle iterator decodes, and
    [prop_phandles_err] the errno it stops with when the cells after them
    are malformed. *)
Record property (N : Type) := {
  prop_strings : positive + list string;
  prop_phandles : list (phandle_entry N);
  prop_phandles_err : option positive
}.
Arguments prop_strings {N} _.
Arguments prop_phandles {N} _.
Arguments prop_phandles_err {N} _.

(** [struct device_node], with the [child] and [sibling] links of the
    kernel structure. A node pointer is an [option device_node]. *)
#[warnings="-register-all"]
Inductive device_node : Type := DeviceNode {
  full_name : string;
  properties : list (string * property device_node);
  child : option device_node;
  sibling : option device_node
}.

(** [struct of_phandle_args]. *)
Record of_phandle_args := {
  np : option device_node;
  args_count : Z;
  args : list Z
}.

(** Result of an accessor with an output parameter: the value written on
    success (return code 0), or the errno [e] (return code [- e]). *)
Inductive of_result (A : Type) :=
| OfOk (v : A)
| OfErr (errno : positive).
Arguments OfOk {A} v.
Arguments OfErr {A} errno.

Definition errno_of_pos (z : Z) : positive :=
  match z with Z.pos p => p | _ => 1%positive end.

(** [of_find_property(np, name, NULL)]. *)
Definition of_find_property (node : option device_node) (name : string)
  : option (property device_node) :=
  match node with
  | None => None
  | Some n =>
      snd <$> List.find (fun kv => String.eqb (fst kv) name) (properties n)
  end.

(** [of_property_count_strings(np, name)]. *)
Definition of_property_count_strings (node : option device_node)
    (name : string) : Z :=
  match of_find_property node name with
  | None => - EINVAL
  | Some p =>
      match prop_strings p with
      | inl e => Z.neg e
      | inr ss => Z.of_nat (length ss)
      end
  end.

(** [of_property_read_string(np, name, &out)]: the first string. *)
Definition of_property_read_string (node : option device_node)
    (name : string) : of_result string :=
  match of_find_property node name with
  | None => OfErr (errno_of_pos EINVAL)
  | Some p =>
      match prop_strings p with
      | inl e => OfErr e
      | inr [] => OfErr (errno_of_pos ENODATA)
      | inr (s :: _) => OfOk s
      end
  end.

(** [of_property_read_string_index(np, name, index, &out)]. *)
Definition of_property_read_string_index (node : option device_node)
    (name : string) (index : Z) : of_result string :=
  match of_find_property node name with
  | None => OfErr (errno_of_pos EINVAL)
  | Some p =>
      match prop_strings p with
      | inl e => OfErr e
      | inr ss =>
          if index <? 0 then OfErr (errno_of_pos ENODATA)
          else match ss !! Z.to_nat index with
               | Some s => OfOk s
               | None => OfErr (errno_of_pos ENODATA)
               end
      end
  end.

(** [of_count_phandle_with_args(np, list_name, cells_name)]. The number of
    cells of each entry is fixed by the target node and already reflected in
    [ph_args], so [cells_name] does not occur in the result. *)
Definition of_count_phandle_with_args (node : option device_node)
    (list_name cells_name : string) : Z :=
  match of_find_property node list_name with
  | None => - ENOENT
  | Some p =>
      match prop_phandles_err p with
      | Some e => Z.neg e
      | None => Z.of_nat (length (prop_phandles p))
      end
  end.

(** [of_parse_phandle_with_args(np, list_name, cells_name, index, &out)]. *)
Definition of_parse_phandle_with_args (node : option device_node)
    (list_name cells_name : string) (index : Z)
  : of_result of_phandle_args :=
  if index <? 0 then OfErr (errno_of_pos EINVAL)
  else
    match of_find_property node list_name with
    | None => OfErr (errno_of_pos ENOENT)
    | Some p =>
        match prop_phandles p !! Z.to_nat index with
        | Some e =>
            match ph_target e with
            | None => OfErr (errno_of_pos ENOENT)
            | Some target =>
                OfOk {| np := Some target;
                        args_count := Z.of_nat (length (ph_args e));
                        args := ph_args e |}
            end
        | None =>
            match prop_phandles_err p with
            | Some e => OfErr e
            | None => OfErr (errno_of_pos ENOENT)
            end
        end
    end.

(** The chain of nodes reached from [n] through [sibling]. *)
Fixpoint sibling_chain (n : device_node) : list device_node :=
  match n with
  | DeviceNode _ _ _ None => [n]
  | DeviceNode _ _ _ (Some s) => n :: sibling_chain s
  end.

Definition children (node : option device_node) : list device_node :=
  match node with
  | Some n =>
      match child n with Some c => sibling_chain c | None => [] end
  | None => []
  end.

(** [of_get_child_count(np)]. *)
Definition of_get_child_count (node : option device_node) : Z :=
  Z.of_nat (length (children node)).

(** [of_get_next_child(node, prev)]: the first child when [prev] is [NULL],
    the sibling of [prev] otherwise; [NULL] for a [NULL] [node]. *)
Definition of_get_next_child (node prev : option device_node)
  : option device_node :=
  match node with
  | None => None
  | Some n =>
      match prev with
      | None => child n
      | Some p => sibling p
      end
  end.

(** *** Building trees *)

(** A property holding a string list; the phandle iterator rejects it. *)
Definition string_property (ss : list string) : property device_node :=
  {| prop_strings := inr ss; prop_phandles := [];
     prop_phandles_err := Some (errno_of_pos EINVAL) |}.

(** A property holding a well-formed phandle list; the string accessors
    reject it. *)
Definition phandle_property (es : list (phandle_entry device_node))
  : property device_node :=
  {| prop_strings := inl (errno_of_pos EILSEQ); prop_phandles := es;
     prop_phandles_err := None |}.

Definition with_sibling (s : option device_node) (n : device_node)
  : device_node :=
  {| full_name := full_name n; properties := properties n;
     child := child n; sibling := s |}.

(** The child chain of a node whose children are [ns], in order. *)
Fixpoint link_siblings (ns : list device_node) : option device_node :=
  match ns with
  | [] => None
  | n :: ns => Some (with_sibling (link_siblings ns) n)
  end.

Definition make_node (name : string)
    (props : list (string * property device_node))
    (kids : list device_node) : device_node :=
  {| full_name := name; properties := props;
     child := link_siblings kids; sibling := None |}.

End OF.
Export OF.

(** ** The device-tree parser: [axidma_of.c] *)
Module AxidmaOf.

(** The messages printed through [axidma_node_err], one constructor per
    call site ([%d] arguments kept). *)
Inductive log_msg :=
| MsgNoChannelNodes          (* DMA does not have any channel nodes. *)
| MsgTooManyChannelNodes     (* DMA has more than two channel nodes. *)
| MsgCompatibleMissing       (* DMA channel is missing the 'compatible' property. *)
| MsgCompatibleUnreadable    (* Unable to read 'compatible' property. *)
| MsgCompatibleInvalid       (* DMA channel has an invalid 'compatible' property. *)
| MsgDmaNamesMissing         (* Property 'dma-names' is missing. *)
| MsgDmasMissing             (* Property 'dmas' is missing. *)
| MsgDmaNamesLength          (* Unable to get the 'dma-names' property length. *)
| MsgDmaNamesEmpty           (* 'dma-names' property is empty. *)
| MsgDmasLength              (* Unable to get the 'dmas' property length. *)
| MsgDmasEmpty               (* 'dmas' property is empty. *)
| MsgLengthsDiffer           (* Length of 'dma-names' and 'dmas' properties differ. *)
| MsgPhandle (i : Z)         (* Unable to get phandle %d from the 'dmas' property. *)
| MsgChannelArgMissing (i : Z)  (* Phandle %d ... is missing the channel direciton argument. *)
| MsgChannelArgInvalid (i : Z)  (* Phandle %d ... has an invalid channel (argument 0). *)
| MsgDmaName (index : Z).    (* Unable to read DMA name %d from the 'dma-names' property. *)

(** A line of the kernel log: the name of the node handed to
    [axidma_node_err] ([None] for a [NULL] node pointer) and the message. *)
Definition log_entry : Type := option string * log_msg.

(** What the parser writes: the device structure behind [dev] and the
    kernel log. *)
Record kstate := {
  dev : axidma_device;
  klog : list log_entry
}.

(** Computations of the parser. [None] is undefined behaviour of the C
    code: a store through [&dev->channels[i]] outside the array the caller
    allocated, or a signed overflow of a counter. *)
Definition M (A : Type) : Type := kstate -> option (A * kstate).

Definition ret {A} (a : A) : M A := fun s => Some (a, s).

Definition bind {A B} (m : M A) (k : A -> M B) : M B :=
  fun s => match m s with
           | Some (a, s') => k a s'
           | None => None
           end.

Declare Scope kmonad_scope.
Delimit Scope kmonad_scope with kmonad.
Notation "x <- m ;; k" := (bind m (fun x => k))
  (at level 100, m at next level, right associativity) : kmonad_scope.
Notation "m ;; k" := (bind m (fun _ => k))
  (at level 100, right associativity) : kmonad_scope.
Local Open Scope kmonad_scope.

(** Modelled from the spec: [axidma_node_err] is a macro of [axidma.h],
    which is not among the sources. A failure is reported with the identity
    of the offending node: a call appends the name of the node it is given
    and its message to the kernel log. *)
Definition axidma_node_err (node : option device_node) (m : log_msg)
  : M unit :=
  fun s => Some (tt, {| dev := dev s;
                        klog := klog s ++ [(full_name <$> node, m)] |}).

Definition load {A} (field : axidma_device -> A) : M A :=
  fun s => Some (field (dev s), s).

Definition store (upd : axidma_device -> axidma_device) : M unit :=
  fun s => Some (tt, {| dev := upd (dev s); klog := klog s |}).

(** A store to a field of [dev->channels[chan]]. *)
Definition store_chan (chan : nat) (upd : axidma_chan -> axidma_chan)
  : M unit :=
  fun s =>
    match channels (dev s) !! chan with
    | Some c =>
        Some (tt, {| dev := set_channels (<[chan := upd c]> (channels (dev s)))
                              (dev s);
                     klog := klog s |})
    | None => None
    end.

(** [dev->field += 1] on an [int] field. *)
Definition increment (field : axidma_device -> Z)
    (set : Z -> axidma_device -> axidma_device) : M unit :=
  fun s =>
    if field (dev s) <? INT_MAX
    then Some (tt, {| dev := set (field (dev s) + 1) (dev s); klog := klog s |})
    else None.

(** [axidma_parse_compatible_property]. [chan] is the index [i] of the
    pointer [&dev->channels[i]] the caller passes, so that the stores
    through [chan] and through [dev] act on the same device structure. *)
Definition axidma_parse_compatible_property (compatible : string)
    (chan : nat) : M Z :=
  if String.eqb compatible "xlnx,axi-dma-mm2s-channel" then
    store_chan chan (set_type AXIDMA_DMA) ;;
    store_chan chan (set_dir AXIDMA_WRITE) ;;
    increment num_dma_tx_chans set_num_dma_tx_chans ;;
    ret 0
  else if String.eqb compatible "xlnx,axi-dma-s2mm-channel" then
    store_chan chan (set_type AXIDMA_DMA) ;;
    store_chan chan (set_dir AXIDMA_READ) ;;
    increment num_dma_rx_chans set_num_dma_rx_chans ;;
    ret 0
  else if String.eqb compatible "xlnx,axi-vdma-mm2s-channel" then
    store_chan chan (set_type AXIDMA_VDMA) ;;
    store_chan chan (set_dir AXIDMA_WRITE) ;;
    increment num_vdma_tx_chans set_num_vdma_tx_chans ;;
    ret 0
  else if String.eqb compatible "xlnx,axi-vdma-s2mm-channel" then
    store_chan chan (set_type AXIDMA_VDMA) ;;
    store_chan chan (set_dir AXIDMA_READ) ;;
    increment num_dma_rx_chans set_num_dma_rx_chans ;;
    ret 0
  else
    ret (- EINVAL).

(** [axidma_of_parse_channel]. *)
Definition axidma_of_parse_channel (dma_node : option device_node)
    (channel : Z) (chan : nat) : M Z :=
  if of_get_child_count dma_node <? 1 then
    axidma_node_err dma_node MsgNoChannelNodes ;;
    ret (- EINVAL)
  else if of_get_child_count dma_node >? 2 then
    axidma_node_err dma_node MsgTooManyChannelNodes ;;
    ret (- EINVAL)
  else
    let dma_chan_node := of_get_next_child dma_node None in
    let dma_chan_node :=
      if channel =? 1 then of_get_next_child dma_node dma_chan_node
      else dma_chan_node in
    match of_find_property dma_chan_node "compatible" with
    | None =>
        axidma_node_err dma_chan_node MsgCompatibleMissing ;;
        ret (- EINVAL)
    | Some _ =>
        match of_property_read_string dma_chan_node "compatible" with
        | OfErr _ =>
            axidma_node_err dma_chan_node MsgCompatibleUnreadable ;;
            ret (- EINVAL)
        | OfOk compatible =>
            rc <- axidma_parse_compatible_property compatible chan ;;
            if rc <? 0 then
              axidma_node_err dma_chan_node MsgCompatibleInvalid ;;
              ret rc
            else
              ret 0
        end
    end.

(** [struct platform_device], reduced to [pdev->dev.of_node]. *)
Record platform_device := {
  of_node : option device_node
}.

(** [axidma_of_num_channels]. *)
Definition axidma_of_num_channels (pdev : platform_device) : M Z :=
  let driver_node := of_node pdev in
  match of_find_property driver_node "dma-names" with
  | None =>
      axidma_node_err driver_node MsgDmaNamesMissing ;;
      ret (- EINVAL)
  | Some _ =>
  match of_find_property driver_node "dmas" with
  | None =>
      axidma_node_err driver_node MsgDmasMissing ;;
      ret (- EINVAL)
  | Some _ =>
      let num_dma_names := of_property_count_strings driver_node "dma-names" in
      if num_dma_names <? 0 then
        axidma_node_err driver_node MsgDmaNamesLength ;;
        ret (- EINVAL)
      else if num_dma_names =? 0 then
        axidma_node_err driver_node MsgDmaNamesEmpty ;;
        ret (- EINVAL)
      else
        let num_dmas :=
          of_count_phandle_with_args driver_node "dmas" "#dma-cells" in
        if num_dmas <? 0 then
          axidma_node_err driver_node MsgDmasLength ;;
          ret (- EINVAL)
        else if num_dmas =? 0 then
          axidma_node_err driver_node MsgDmasEmpty ;;
          ret (- EINVAL)
        else if negb (num_dma_names =? num_dmas) then
          axidma_node_err driver_node MsgLengthsDiffer ;;
          ret (- EINVAL)
        else
          ret num_dma_names
  end
  end.

(** One iteration of the [for] loop of [axidma_of_parse_dma_nodes], for the
    value [i] of the loop variable. [Some rc]: the function returns [rc]
    from inside the loop; [None]: the body ran to its end. *)
Definition parse_dma_nodes_body (driver_node : option device_node) (i : Z)
  : M (option Z) :=
  match of_parse_phandle_with_args driver_node "dmas" "#dma-cells" i with
  | OfErr e =>
      axidma_node_err driver_node (MsgPhandle i) ;;
      ret (Some (Z.neg e))
  | OfOk phandle_args =>
      let dma_node := np phandle_args in
      let channel := u32_to_int (nth 0 (args phandle_args) 0) in
      if args_count phandle_args <? 1 then
        axidma_node_err driver_node (MsgChannelArgMissing i) ;;
        ret (Some (- EINVAL))
      else if negb (channel =? 0) && negb (channel =? 1) then
        axidma_node_err driver_node (MsgChannelArgInvalid i) ;;
        ret (Some (- EINVAL))
      else
        rc <- axidma_of_parse_channel dma_node channel (Z.to_nat i) ;;
        if rc <? 0 then
          ret (Some rc)
        else
          store_chan (Z.to_nat i) (set_channel_id i) ;;
          ret None
  end.

(** The loop [for (i = ...; i < dev->num_chans; i++)] with [n] iterations
    left. The body never stores to [dev->num_chans], so the number of
    iterations is fixed when the loop is entered. *)
Fixpoint parse_dma_nodes_loop (driver_node : option device_node)
    (n : nat) (i : Z) : M Z :=
  match n with
  | O => ret 0
  | S n =>
      r <- parse_dma_nodes_body driver_node i ;;
      match r with
      | Some rc => ret rc
      | None => parse_dma_nodes_loop driver_node n (i + 1)
      end
  end.

(** [axidma_of_parse_dma_nodes]. *)
Definition axidma_of_parse_dma_nodes (pdev : platform_device) : M Z :=
  let driver_node := of_node pdev in
  store (set_num_dma_tx_chans 0) ;;
  store (set_num_dma_rx_chans 0) ;;
  store (set_num_vdma_tx_chans 0) ;;
  store (set_num_vdma_rx_chans 0) ;;
  num_chans <- load num_chans ;;
  parse_dma_nodes_loop driver_node (Z.to_nat num_chans) 0.

(** [axidma_of_parse_dma_name]: the return code and the string written to
    [*dma_name], if any. *)
Definition axidma_of_parse_dma_name (pdev : platform_device) (index : Z)
  : M (Z * option string) :=
  let driver_node := of_node pdev in
  match of_property_read_string_index driver_node "dma-names" index with
  | OfErr _ =>
      axidma_node_err driver_node (MsgDmaName index) ;;
      ret (- EINVAL, None)
  | OfOk dma_name =>
      ret (0, Some dma_name)
  end.

(** *** What a device tree declares

    The definitions below do not embed code: they say, from the device tree
    alone, which channel each reference of the ['dmas'] list denotes, and
    which device structure a run over a list of channels leaves behind. The
    theorems compare the parser with them. *)

(** The vocabulary of ['compatible'] strings of a channel node. *)
Definition channel_kind (compatible : string)
  : option (axidma_type * axidma_dir) :=
  if decide (compatible = "xlnx,axi-dma-mm2s-channel") then
    Some (AXIDMA_DMA, AXIDMA_WRITE)
  else if decide (compatible = "xlnx,axi-dma-s2mm-channel") then
    Some (AXIDMA_DMA, AXIDMA_READ)
  else if decide (compatible = "xlnx,axi-vdma-mm2s-channel") then
    Some (AXIDMA_VDMA, AXIDMA_WRITE)
  else if decide (compatible = "xlnx,axi-vdma-s2mm-channel") then
    Some (AXIDMA_VDMA, AXIDMA_READ)
  else None.

(** The type tag of a channel node: its ['compatible'] string, when the
    node exists, has the property and the property reads as a string. *)
Definition type_tag (node : option device_node) : option string :=
  match of_property_read_string node "compatible" with
  | OfOk compatible => Some compatible
  | OfErr _ => None
  end.

(** The kind of the sub-channel [channel] (0 or 1) of a DMA node with one
    or two children: the child at that position must carry a type tag of
    the vocabulary. *)
Definition sub_channel_kind (dma_node : option device_node) (channel : Z)
  : option (axidma_type * axidma_dir) :=
  let kids := children dma_node in
  if decide (1 <= length kids <= 2)%nat then
    match type_tag (kids !! Z.to_nat channel) with
    | Some compatible => channel_kind compatible
    | None => None
    end
  else None.

(** The kind denoted by the [i]-th reference of the ['dmas'] list: the
    reference resolves, has at least one argument, and the first argument
    is 0 or 1 and selects a sub-channel with a kind. *)
Definition reference_kind (driver_node : option device_node) (i : Z)
  : option (axidma_type * axidma_dir) :=
  match of_parse_phandle_with_args driver_node "dmas" "#dma-cells" i with
  | OfOk pa =>
      match args pa with
      | a :: _ =>
          if decide (u32_to_int a = 0 \/ u32_to_int a = 1)
          then sub_channel_kind (np pa) (u32_to_int a)
          else None
      | [] => None
      end
  | OfErr _ => None
  end.

(** The device tree declares the channels [ks], in this order. *)
Definition declares (pdev : platform_device)
    (ks : list (axidma_type * axidma_dir)) : Prop :=
  forall (j : nat) k,
    ks !! j = Some k -> reference_kind (of_node pdev) (Z.of_nat j) = Some k.

(** The descriptor of a channel of kind [k] at index [i]. *)
Definition descriptor (i : Z) (k : axidma_type * axidma_dir) : axidma_chan :=
  {| dir := snd k; type := fst k; channel_id := i |}.

(** The counter the parser increments for a channel of kind [k]. The
    VDMA receive channel is counted in [num_dma_rx_chans], as the code
    does. *)
Definition count_channel (k : axidma_type * axidma_dir) (d : axidma_device)
  : axidma_device :=
  match k with
  | (AXIDMA_DMA, AXIDMA_WRITE) =>
      set_num_dma_tx_chans (num_dma_tx_chans d + 1) d
  | (AXIDMA_DMA, AXIDMA_READ) =>
      set_num_dma_rx_chans (num_dma_rx_chans d + 1) d
  | (AXIDMA_VDMA, AXIDMA_WRITE) =>
      set_num_vdma_tx_chans (num_vdma_tx_chans d + 1) d
  | (AXIDMA_VDMA, AXIDMA_READ) =>
      set_num_dma_rx_chans (num_dma_rx_chans d + 1) d
  end.

(** The device structure after the channels [ks] were recorded at the
    indices [i], [i+1], ... *)
Definition record_channel (i : Z) (k : axidma_type * axidma_dir)
    (d : axidma_device) : axidma_device :=
  set_channels (<[Z.to_nat i := descriptor i k]> (channels (count_channel k d)))
               (count_channel k d).

Fixpoint record_channels (i : Z) (ks : list (axidma_type * axidma_dir))
    (d : axidma_device) : axidma_device :=
  match ks with
  | [] => d
  | k :: ks => record_channels (i + 1) ks (record_channel i k d)
  end.

(** The counters as [axidma_of_parse_dma_nodes] initialises them. *)
Definition reset_counts (d : axidma_device) : axidma_device :=
  set_num_vdma_rx_chans 0
    (set_num_vdma_tx_chans 0
       (set_num_dma_rx_chans 0 (set_num_dma_tx_chans 0 d))).

(** A computation that leaves [dev->num_chans] as it found it. *)
Definition keeps_num_chans {A} (m : M A) : Prop :=
  forall s a s', m s = Some (a, s') -> num_chans (dev s') = num_chans (dev s).

(** Each counter the parser increments can take [n] more increments
    without leaving the range of [int]. *)
Definition headroom (n : Z) (d : axidma_device) : Prop :=
  num_dma_tx_chans d + n <= INT_MAX /\
  num_dma_rx_chans d + n <= INT_MAX /\
  num_vdma_tx_chans d + n <= INT_MAX.

(** The number of channels of kind [k] in [ks]. *)
Definition count_kind (k : axidma_type * axidma_dir)
    (ks : list (axidma_type * axidma_dir)) : Z :=
  Z.of_nat (length (filter (fun k' => k' = k) ks)).

End AxidmaOf.

(** ** Statements of the specification and concrete inputs *)
Module Examples.
Import Chrdev AxidmaOf.

(** The range check the specification asks of the mapping request, for a
    buffer of [buffer_length] bytes: a request whose offset plus length
    exceeds the buffer is refused. *)
Definition rejects_out_of_range (mm : MemoryMapper) (buffer_length : Z)
  : Prop :=
  forall dev vma,
    0 <= vm_pgoff vma ->
    vm_start vma <= vm_end vma ->
    vm_pgoff vma * 2 ^ PAGE_SHIFT + (vm_end vma - vm_start vma)
      > buffer_length ->
    exists rc vma',
      axidma_mmap (Some dev) vma = Some (rc, vma') /\ rc < 0.

(** Outcomes of [axidma_of_parse_channel] on the channel at index [chan]:
    it returns 0 and leaves type [t] and direction [r] in the descriptor,
    or it returns [-EINVAL] with the message [m] and stores nothing. *)
Definition channel_resolves (dma_node : option device_node) (channel : Z)
    (chan : nat) (s : kstate) (t : axidma_type) (r : axidma_dir) : Prop :=
  exists d' c,
    channels (dev s) !! chan = Some c /\
    axidma_of_parse_channel dma_node channel chan s
    = Some (0, {| dev := d'; klog := klog s |}) /\
    channels d' !! chan
    = Some {| dir := r; type := t; channel_id := channel_id c |}.

Definition channel_fails (dma_node : option device_node) (channel : Z)
    (chan : nat) (s : kstate) (m : log_msg) : Prop :=
  exists node,
    axidma_of_parse_channel dma_node channel chan s
    = Some (- EINVAL, {| dev := dev s; klog := klog s ++ [(node, m)] |}).

(** The iteration for reference [i] leaves the function with [-EINVAL] and
    the message [m], and stores nothing. *)
Definition reference_fails (driver_node : option device_node) (i : Z)
    (s : kstate) (m : log_msg) : Prop :=
  exists node,
    parse_dma_nodes_body driver_node i s
    = Some (Some (- EINVAL),
            {| dev := dev s; klog := klog s ++ [(node, m)] |}).

(** A device structure with room for two channels. *)
Definition example_device : axidma_device :=
  {| num_dma_tx_chans := 7; num_dma_rx_chans := 7;
     num_vdma_tx_chans := 7; num_vdma_rx_chans := 7;
     num_chans := 2;
     channels := [ {| dir := AXIDMA_READ; type := AXIDMA_VDMA;
                      channel_id := -1 |};
                   {| dir := AXIDMA_READ; type := AXIDMA_VDMA;
                      channel_id := -1 |} ];
     dma_base_vaddr := 3221225472 |}.

(** Memory-management services of a 32-bit machine with 4 KiB pages on
    which every mapping request is granted. *)
Definition granting_mapper : MemoryMapper :=
  {| BITS_PER_LONG := 32;
     PAGE_SHIFT := 12;
     pgprot_noncached := fun prot => Z.lor prot 1;
     virt_to_phys := fun addr => addr - 3221225472;
     phys_to_pfn := fun paddr => Z.shiftr paddr 12;
     remap_pfn_range := fun _ _ _ _ _ => 0 |}.

(** A request for two pages at page offset 0. *)
Definition two_pages : vm_area_struct :=
  {| vm_start := 1073741824; vm_end := 1073750016;
     vm_pgoff := 0; vm_page_prot := 0 |}.

(** Device trees. A channel node carries its type tag; a DMA core has one
    channel node per tag; the driver node lists names and references. *)
Definition channel_node (compatible : string) : device_node :=
  make_node "dma-channel" [("compatible", string_property [compatible])] [].

Definition dma_core (name : string) (tags : list string) : device_node :=
  make_node name [] (channel_node <$> tags).

Definition reference (target : device_node) (cells : list Z)
  : phandle_entry device_node :=
  {| ph_target := Some target; ph_args := cells |}.

Definition driver (names : list string)
    (refs : list (phandle_entry device_node)) : platform_device :=
  {| of_node :=
       Some (make_node "axidma-chrdev"
               [("dma-names", string_property names);
                ("dmas", phandle_property refs)] []) |}.

Definition axi_dma : device_node :=
  dma_core "dma@40400000"
    ["xlnx,axi-dma-mm2s-channel"; "xlnx,axi-dma-s2mm-channel"].

Definition axi_dma_tx : device_node :=
  dma_core "dma@40400000" ["xlnx,axi-dma-mm2s-channel"].

Definition axi_dma_rx : device_node :=
  dma_core "dma@40410000" ["xlnx,axi-dma-s2mm-channel"].

Definition axi_vdma_rx : device_node :=
  dma_core "vdma@43000000" ["xlnx,axi-vdma-s2mm-channel"].

(** Names [tx_channel] and [rx_channel], sub-channel 0 of a transmit core
    and sub-channel 0 of a receive core. *)
Definition tx_rx_tree : platform_device :=
  driver ["tx_channel"; "rx_channel"]
         [reference axi_dma_tx [0]; reference axi_dma_rx [0]].

(** One VDMA receive channel. *)
Definition vdma_rx_tree : platform_device :=
  driver ["vdma_rx"] [reference axi_vdma_rx [0]].

(** The second reference selects sub-channel 2. *)
Definition bad_selector_tree : platform_device :=
  driver ["tx_channel"; "rx_channel"]
         [reference axi_dma [0]; reference axi_dma [2]].

(** A reference with two argument cells. *)
Definition two_cells_tree : platform_device :=
  driver ["tx_channel"] [reference axi_dma [0; 5]].

(** Two names, one reference. *)
Definition mismatched_tree : platform_device :=
  driver ["tx_channel"; "rx_channel"] [reference axi_dma [0]].

(** The same reference list as [tx_rx_tree] with one name only. *)
Definition tx_rx_tree_one_name : platform_device :=
  driver ["tx_channel"]
         [reference axi_dma_tx [0]; reference axi_dma_rx [0]].

Definition with_num_chans (n : Z) (d : axidma_device) : axidma_device :=
  {| num_dma_tx_chans := num_dma_tx_chans d;
     num_dma_rx_chans := num_dma_rx_chans d;
     num_vdma_tx_chans := num_vdma_tx_chans d;
     num_vdma_rx_chans := num_vdma_rx_chans d;
     num_chans := n; channels := channels d;
     dma_base_vaddr := dma_base_vaddr d |}.

(** The parser's state when it is entered on [d] with an empty log. *)
Definition entry (d : axidma_device) : kstate :=
  {| dev := d; klog := [] |}.

End Examples.

(** ** Registration of the character device

    [axidma_chrdev_init] and [axidma_chrdev_exit] of [axidma_chrdev.c],
    over a model of the kernel objects they create and destroy. *)
Module ChrdevSetup.
Import Chrdev.

(** A pointer returned by [class_create] or [device_create]: an errno
    encoded as by [ERR_PTR], or the address of the object. *)
Inductive err_ptr :=
| ErrPtr (errno : positive)
| Ptr (addr : Z).

Definition IS_ERR (p : err_ptr) : bool :=
  match p with ErrPtr _ => true | Ptr _ => false end.

Definition PTR_ERR (p : err_ptr) : Z :=
  match p with ErrPtr e => Z.neg e | Ptr a => a end.

(** [struct cdev]: whether [cdev_init] installed the driver's file
    operations, and the device numbers [cdev_add] stored in it. *)
Record cdev := {
  ops_installed : bool;
  cdev_numbers : option (Z * Z)
}.

(** Modelled from the spec: the fields of [struct axidma_device] (declared
    in [axidma.h], which is not among the sources) that the registration
    code reads or writes, under the names the code uses. *)
Record chrdev_fields := {
  num_devices : Z;
  minor_num : Z;
  chrdev_name : string;
  dev_num : Z;
  dev_class : err_ptr;
  device : err_ptr;
  chrdev : cdev
}.

Definition set_dev_num (v : Z) (cf : chrdev_fields) : chrdev_fields :=
  {| num_devices := num_devices cf; minor_num := minor_num cf;
     chrdev_name := chrdev_name cf; dev_num := v;
     dev_class := dev_class cf; device := device cf; chrdev := chrdev cf |}.

Definition set_dev_class (v : err_ptr) (cf : chrdev_fields) : chrdev_fields :=
  {| num_devices := num_devices cf; minor_num := minor_num cf;
     chrdev_name := chrdev_name cf; dev_num := dev_num cf;
     dev_class := v; device := device cf; chrdev := chrdev cf |}.

Definition set_device (v : err_ptr) (cf : chrdev_fields) : chrdev_fields :=
  {| num_devices := num_devices cf; minor_num := minor_num cf;
     chrdev_name := chrdev_name cf; dev_num := dev_num cf;
     dev_class := dev_class cf; device := v; chrdev := chrdev cf |}.

Definition set_chrdev (v : cdev) (cf : chrdev_fields) : chrdev_fields :=
  {| num_devices := num_devices cf; minor_num := minor_num cf;
     chrdev_name := chrdev_name cf; dev_num := dev_num cf;
     dev_class := dev_class cf; device := device cf; chrdev := v |}.

(** What is registered with the kernel: regions of device numbers (first
    number, count), device classes (address), devices (class, number) and
    added character devices (first number, count). *)
Record kernel := {
  chrdev_regions : list (Z * Z);
  classes : list Z;
  devices : list (Z * Z);
  cdevs : list (Z * Z)
}.

(** What the kernel answers to the four calls of [axidma_chrdev_init] that
    can fail: an errno, or the device number, the address of the class, the
    address of the device, or success. *)
Record answers := {
  alloc_chrdev_region_ans : positive + Z;
  class_create_ans : err_ptr;
  device_create_ans : err_ptr;
  cdev_add_ans : option positive
}.

(** Removal of one registration. *)
Fixpoint remove_one {A} `{EqDecision A} (x : A) (l : list A) : list A :=
  match l with
  | [] => []
  | y :: l => if decide (x = y) then l else y :: remove_one x l
  end.

(** [alloc_chrdev_region(&dev, baseminor, count, name)]: the return code,
    the number written to [*dev] on success, and the kernel afterwards. *)
Definition alloc_chrdev_region (a : answers) (baseminor count : Z)
    (name : string) (k : kernel) : Z * option Z * kernel :=
  match alloc_chrdev_region_ans a with
  | inl e => (Z.neg e, None, k)
  | inr n =>
      (0, Some n,
       {| chrdev_regions := (n, count) :: chrdev_regions k;
          classes := classes k; devices := devices k; cdevs := cdevs k |})
  end.

(** [unregister_chrdev_region(from, count)]. *)
Definition unregister_chrdev_region (from count : Z) (k : kernel) : kernel :=
  {| chrdev_regions := remove_one (from, count) (chrdev_regions k);
     classes := classes k; devices := devices k; cdevs := cdevs k |}.

(** [class_create(THIS_MODULE, name)]. *)
Definition class_create (a : answers) (name : string) (k : kernel)
  : err_ptr * kernel :=
  match class_create_ans a with
  | ErrPtr e => (ErrPtr e, k)
  | Ptr c =>
      (Ptr c,
       {| chrdev_regions := chrdev_regions k; classes := c :: classes k;
          devices := devices k; cdevs := cdevs k |})
  end.

(** [class_destroy(cls)]; an error pointer is ignored. *)
Definition class_destroy (cls : err_ptr) (k : kernel) : kernel :=
  match cls with
  | ErrPtr _ => k
  | Ptr c =>
      {| chrdev_regions := chrdev_regions k;
         classes := remove_one c (classes k);
         devices := devices k; cdevs := cdevs k |}
  end.

(** [device_create(cls, NULL, devt, NULL, name)]. *)
Definition device_create (a : answers) (cls : err_ptr) (devt : Z)
    (name : string) (k : kernel) : err_ptr * kernel :=
  match device_create_ans a with
  | ErrPtr e => (ErrPtr e, k)
  | Ptr d =>
      (Ptr d,
       {| chrdev_regions := chrdev_regions k; classes := classes k;
          devices := (PTR_ERR cls, devt) :: devices k; cdevs := cdevs k |})
  end.

(** [device_destroy(cls, devt)]. *)
Definition device_destroy (cls : err_ptr) (devt : Z) (k : kernel) : kernel :=
  {| chrdev_regions := chrdev_regions k; classes := classes k;
     devices := remove_one (PTR_ERR cls, devt) (devices k);
     cdevs := cdevs k |}.

(** [cdev_init(&cdev, &axidma_fops)]. *)
Definition cdev_init (c : cdev) : cdev :=
  {| ops_installed := true; cdev_numbers := None |}.

(** [cdev_add(&cdev, devt, count)]: the return code, the structure and the
    kernel afterwards. *)
Definition cdev_add (a : answers) (c : cdev) (devt count : Z) (k : kernel)
  : Z * cdev * kernel :=
  let c := {| ops_installed := ops_installed c;
              cdev_numbers := Some (devt, count) |} in
  match cdev_add_ans a with
  | Some e => (Z.neg e, c, k)
  | None =>
      (0, c,
       {| chrdev_regions := chrdev_regions k; classes := classes k;
          devices := devices k; cdevs := (devt, count) :: cdevs k |})
  end.

(** [cdev_del(&cdev)]. *)
Definition cdev_del (c : cdev) (k : kernel) : kernel :=
  match cdev_numbers c with
  | Some numbers =>
      {| chrdev_regions := chrdev_regions k; classes := classes k;
         devices := devices k; cdevs := remove_one numbers (cdevs k) |}
  | None => k
  end.

(** [axidma_chrdev_init]. The result is the return code, the file-scope
    pointer [axidma_dev], the fields of [*dev] and the kernel afterwards.
    The labels of the cleanup chain are written out at each [goto]. *)
Definition axidma_chrdev_init (a : answers) (dev : axidma_device)
    (cf : chrdev_fields) (k : kernel)
  : Z * option axidma_device * chrdev_fields * kernel :=
  let axidma_dev := Some dev in
  let '(rc, n, k) :=
    alloc_chrdev_region a (minor_num cf) (num_devices cf) (chrdev_name cf) k in
  let cf := match n with Some n => set_dev_num n cf | None => cf end in
  if rc <? 0 then
    (* goto ret *)
    (rc, axidma_dev, cf, k)
  else
    let '(cls, k) := class_create a (chrdev_name cf) k in
    let cf := set_dev_class cls cf in
    if IS_ERR (dev_class cf) then
      let rc := PTR_ERR (dev_class cf) in
      (* goto free_chrdev_region *)
      let k := unregister_chrdev_region (dev_num cf) (num_devices cf) k in
      (rc, axidma_dev, cf, k)
    else
      let '(d, k) :=
        device_create a (dev_class cf) (dev_num cf) (chrdev_name cf) k in
      let cf := set_device d cf in
      if IS_ERR (device cf) then
        let rc := PTR_ERR (device cf) in
        (* goto class_cleanup *)
        let k := class_destroy (dev_class cf) k in
        let k := unregister_chrdev_region (dev_num cf) (num_devices cf) k in
        (rc, axidma_dev, cf, k)
      else
        let cf := set_chrdev (cdev_init (chrdev cf)) cf in
        let '(rc, c, k) :=
          cdev_add a (chrdev cf) (dev_num cf) (num_devices cf) k in
        let cf := set_chrdev c cf in
        if rc <? 0 then
          (* goto device_cleanup *)
          let k := device_destroy (dev_class cf) (dev_num cf) k in
          let k := class_destroy (dev_class cf) k in
          let k := unregister_chrdev_region (dev_num cf) (num_devices cf) k in
          (rc, axidma_dev, cf, k)
        else
          (0, axidma_dev, cf, k).

(** [axidma_chrdev_exit]. *)
Definition axidma_chrdev_exit (cf : chrdev_fields) (k : kernel) : kernel :=
  let k := cdev_del (chrdev cf) k in
  let k := device_destroy (dev_class cf) (dev_num cf) k in
  let k := class_destroy (dev_class cf) k in
  let k := unregister_chrdev_region (dev_num cf) (num_devices cf) k in
  k.

(** Fields of a device structure before registration, and an empty
    kernel, to run examples on. *)
Definition unregistered_fields : chrdev_fields :=
  {| num_devices := 1; minor_num := 0; chrdev_name := "axidma";
     dev_num := 0; dev_class := Ptr 0; device := Ptr 0;
     chrdev := {| ops_installed := false; cdev_numbers := None |} |}.

Definition empty_kernel : kernel :=
  {| chrdev_regions := []; classes := []; devices := []; cdevs := [] |}.

(** The kernel grants everything. *)
Definition all_granted : answers :=
  {| alloc_chrdev_region_ans := inr 257949696;
     class_create_ans := Ptr 3489660928;
     device_create_ans := Ptr 3489665024;
     cdev_add_ans := None |}.

(** The kernel refuses to create the device, with [-ENOMEM]. *)
Definition device_refused : answers :=
  {| alloc_chrdev_region_ans := inr 257949696;
     class_create_ans := Ptr 3489660928;
     device_create_ans := ErrPtr 12;
     cdev_add_ans := None |}.

End ChrdevSetup.

(** * Properties of the character device *)
Section ChrdevProperties.
Import Chrdev Examples.

Lemma vfs_open_root_excl s flags :
  Z.land flags O_EXCL <> 0 ->
  vfs_call s (Open true flags) =
    (0, {| axidma_dev := axidma_dev s;
           files := <[fresh (dom (files s)) :=
                        {| f_flags := flags; private_data := axidma_dev s |}]>
                      (files s) |}).
Proof.
  intros H. unfold vfs_call, axidma_open. simpl.
  destruct (Z.eqb_spec (Z.land flags O_EXCL) 0) as [E|E]; [done|]. reflexivity.
Qed.

Lemma vfs_call_axidma_dev s c : axidma_dev (snd (vfs_call s c)) = axidma_dev s.
Proof.
  destruct c as [cap flags|fd]; simpl.
  - destruct (axidma_open _ _ _) as [rc f]. by destruct (rc =? 0).
  - by destruct (files s !! fd).
Qed.

Lemma run_axidma_dev cs : forall s, axidma_dev (run s cs) = axidma_dev s.
Proof.
  induction cs as [|c cs IH]; intros s; simpl; [done|].
  by rewrite IH, vfs_call_axidma_dev.
Qed.

Lemma live_sessions_insert_fresh s f :
  has_session f = true ->
  live_sessions {| axidma_dev := axidma_dev s;
                   files := <[fresh (dom (files s)) := f]> (files s) |}
  = S (live_sessions s).
Proof.
  intros Hf. unfold live_sessions. simpl.
  rewrite map_to_list_insert.
  - rewrite filter_cons_True by done. done.
  - apply not_elem_of_dom. apply is_fresh.
Qed.

(** C9. An open by a caller without [CAP_SYS_ADMIN] returns [-EPERM]; an
    open by a privileged caller whose flags lack [O_EXCL] returns
    [-EINVAL]. In both cases the file structure is left as it was (no
    device pointer is stored in it) and the open files of the device are
    unchanged. *)
Theorem open_refused (cap : bool) (p : option axidma_device) (f : file)
    (s : chrdev) :
  cap = false \/ Z.land (f_flags f) O_EXCL = 0 ->
  axidma_open cap p f = ((if cap then - EINVAL else - EPERM), f) /\
  vfs_call s (Open cap (f_flags f))
    = ((if cap then - EINVAL else - EPERM), s).
Proof.
  intros H. unfold vfs_call, axidma_open. simpl.
  destruct cap; simpl.
  - destruct H as [H|H]; [done|]. rewrite H. simpl. done.
  - done.
Qed.

Lemma open_refused_witness :
  (axidma_open true (Some example_device)
     {| f_flags := 2; private_data := None |}
   = (- EINVAL, {| f_flags := 2; private_data := None |})) /\
  vfs_call (initialized example_device) (Open true 2)
   = (- EINVAL, initialized example_device).
Proof.
  apply (open_refused true (Some example_device)
           {| f_flags := 2; private_data := None |}
           (initialized example_device)).
  right. reflexivity.
Defined.

(** C1, as the code has it. Whatever calls were made on the initialized
    device, and however many sessions are live, an open by a privileged
    caller that passes [O_EXCL] returns 0 and adds a live session: the
    driver keeps no record of a holder and has no already-open error. *)
Theorem open_succeeds_in_every_state (dev : axidma_device) (cs : list call)
    (flags : Z) :
  Z.land flags O_EXCL <> 0 ->
  let s := run (initialized dev) cs in
  fst (vfs_call s (Open true flags)) = 0 /\
  live_sessions (snd (vfs_call s (Open true flags))) = S (live_sessions s).
Proof.
  intros H s. rewrite vfs_open_root_excl by done. simpl. split; [done|].
  apply live_sessions_insert_fresh. unfold has_session. simpl.
  unfold s. by rewrite run_axidma_dev.
Qed.

Lemma open_succeeds_in_every_state_witness :
  let s := run (initialized example_device) [Open true O_EXCL] in
  fst (vfs_call s (Open true O_EXCL)) = 0 /\
  live_sessions (snd (vfs_call s (Open true O_EXCL))) = S (live_sessions s).
Proof.
  apply (open_succeeds_in_every_state example_device [Open true O_EXCL] O_EXCL).
  vm_compute. discriminate.
Defined.

(** C1, counterexample. On an initialized device, a second open by a
    privileged exclusive caller made while the session of the first is live
    returns 0 as well, and two sessions are live. *)
Lemma second_open_not_refused :
  let s1 := run (initialized example_device) [Open true O_EXCL] in
  live_sessions s1 = 1%nat /\
  fst (vfs_call s1 (Open true O_EXCL)) = 0 /\
  live_sessions (snd (vfs_call s1 (Open true O_EXCL))) = 2%nat.
Proof. vm_compute. done. Qed.

(** C2, as the code has it. [axidma_mmap] makes no range check: it marks
    the area non-cached, asks [remap_pfn_range] for [vm_end - vm_start]
    bytes at the frame of the buffer base (the page offset of the request
    is not used), and returns the negative code of [remap_pfn_range] or 0. *)
Theorem mmap_delegates (mm : MemoryMapper) (dev : axidma_device)
    (vma : vm_area_struct) :
  let vma' := set_page_prot (pgprot_noncached (vm_page_prot vma)) vma in
  let rc := remap_pfn_range vma' (vm_start vma)
              (phys_to_pfn (virt_to_phys (dma_base_vaddr dev)))
              ((vm_end vma - vm_start vma) mod 2 ^ BITS_PER_LONG)
              (pgprot_noncached (vm_page_prot vma)) in
  axidma_mmap (Some dev) vma = Some (Z.min rc 0, vma').
Proof.
  intros vma' rc. unfold axidma_mmap. simpl. fold vma'. fold rc.
  destruct (Z.ltb_spec rc 0).
  - by rewrite Z.min_l by lia.
  - by rewrite Z.min_r by lia.
Qed.

(** C2, counterexample. With a buffer of one page, a request for two pages
    is granted as soon as [remap_pfn_range] grants it. *)
Lemma mmap_beyond_buffer_granted :
  ~ rejects_out_of_range granting_mapper 4096.
Proof.
  intros H.
  destruct (H example_device two_pages) as (rc & vma' & Hrun & Hrc);
    [vm_compute; discriminate | vm_compute; discriminate | vm_compute; done |].
  vm_compute in Hrun. injection Hrun as <- _. lia.
Qed.

End ChrdevProperties.

(** * Properties of the device-tree parser *)
Section OfProperties.
Import AxidmaOf Examples.
Local Open Scope kmonad_scope.

(** ** The device tree *)

Lemma sibling_chain_unfold (n : device_node) :
  sibling_chain n
  = n :: match sibling n with Some s => sibling_chain s | None => [] end.
Proof. by destruct n as [? ? ? [s|]]. Qed.

Lemma children_first (node : option device_node) :
  children node !! 0%nat = of_get_next_child node None.
Proof.
  destruct node as [n|]; simpl; [|done].
  destruct (child n) as [c|]; [|done].
  by rewrite sibling_chain_unfold.
Qed.

Lemma children_second (node : option device_node) :
  children node !! 1%nat
  = of_get_next_child node (of_get_next_child node None).
Proof.
  destruct node as [n|]; simpl; [|done].
  destruct (child n) as [c|]; simpl; [|done].
  rewrite sibling_chain_unfold. simpl.
  destruct (sibling c) as [s|]; [|done].
  by rewrite sibling_chain_unfold.
Qed.

(** The node [axidma_of_parse_channel] goes to is the child at position
    [channel]. *)
Lemma selected_child (node : option device_node) (channel : Z) :
  channel = 0 \/ channel = 1 ->
  (if channel =? 1
   then of_get_next_child node (of_get_next_child node None)
   else of_get_next_child node None)
  = children node !! Z.to_nat channel.
Proof.
  intros [-> | ->]; simpl.
  - by rewrite children_first.
  - by rewrite children_second.
Qed.

Lemma read_string_found (node : option device_node) name s :
  of_property_read_string node name = OfOk s ->
  exists p, of_find_property node name = Some p.
Proof.
  unfold of_property_read_string.
  destruct (of_find_property node name) as [p|]; [eauto | done].
Qed.

Lemma parse_phandle_args_count driver list_name cells_name i pa :
  of_parse_phandle_with_args driver list_name cells_name i = OfOk pa ->
  args_count pa = Z.of_nat (length (args pa)).
Proof.
  unfold of_parse_phandle_with_args. intros H.
  repeat (case_match; try done). by injection H as <-.
Qed.

(** ** The parser, one function at a time *)

Lemma channel_kind_cases (compatible : string) :
  (compatible = "xlnx,axi-dma-mm2s-channel"
   /\ channel_kind compatible = Some (AXIDMA_DMA, AXIDMA_WRITE)) \/
  (compatible = "xlnx,axi-dma-s2mm-channel"
   /\ channel_kind compatible = Some (AXIDMA_DMA, AXIDMA_READ)) \/
  (compatible = "xlnx,axi-vdma-mm2s-channel"
   /\ channel_kind compatible = Some (AXIDMA_VDMA, AXIDMA_WRITE)) \/
  (compatible = "xlnx,axi-vdma-s2mm-channel"
   /\ channel_kind compatible = Some (AXIDMA_VDMA, AXIDMA_READ)) \/
  (channel_kind compatible = None
   /\ compatible <> "xlnx,axi-dma-mm2s-channel"
   /\ compatible <> "xlnx,axi-dma-s2mm-channel"
   /\ compatible <> "xlnx,axi-vdma-mm2s-channel"
   /\ compatible <> "xlnx,axi-vdma-s2mm-channel").
Proof.
  unfold channel_kind. repeat case_decide; subst; auto 10.
Qed.

Lemma store_chan_twice chan f g c s :
  channels (dev s) !! chan = Some c ->
  (store_chan chan f ;; store_chan chan g) s
  = Some (tt, {| dev := set_channels (<[chan := g (f c)]> (channels (dev s)))
                          (dev s);
                 klog := klog s |}).
Proof.
  intros Hc. unfold bind, store_chan. rewrite Hc. simpl.
  rewrite list_lookup_insert_eq by (by eapply lookup_lt_Some).
  by rewrite list_insert_insert_eq.
Qed.

(** A string of the vocabulary: type and direction are stored in the
    channel, one counter is incremented, and the function returns 0. *)
Lemma parse_compatible_known compatible chan k c s :
  channel_kind compatible = Some k ->
  channels (dev s) !! chan = Some c ->
  headroom 1 (dev s) ->
  axidma_parse_compatible_property compatible chan s
  = Some (0, {| dev := set_channels
                         (<[chan := {| dir := snd k; type := fst k;
                                       channel_id := channel_id c |}]>
                            (channels (dev s)))
                         (count_channel k (dev s));
                klog := klog s |}).
Proof.
  intros Hk Hc (Htx & Hrx & Hvtx).
  assert (Hb : forall f g (m : M Z), (store_chan chan f ;; store_chan chan g ;; m) s
     = (m {| dev := set_channels (<[chan := g (f c)]> (channels (dev s)))
                          (dev s); klog := klog s |})).
  { intros f g m. pose proof (store_chan_twice chan f g c s Hc) as E.
    unfold bind in *. destruct (store_chan chan f s) as [[[] s1]|]; [|done].
    by rewrite E. }
  unfold axidma_parse_compatible_property.
  destruct (channel_kind_cases compatible)
    as [[-> E]|[[-> E]|[[-> E]|[[-> E]|[E _]]]]];
    rewrite E in Hk; try done; injection Hk as <-; simpl;
    rewrite Hb; unfold bind, increment, ret; simpl.
  - destruct (Z.ltb_spec (num_dma_tx_chans (dev s)) INT_MAX); [done|lia].
  - destruct (Z.ltb_spec (num_dma_rx_chans (dev s)) INT_MAX); [done|lia].
  - destruct (Z.ltb_spec (num_vdma_tx_chans (dev s)) INT_MAX); [done|lia].
  - destruct (Z.ltb_spec (num_dma_rx_chans (dev s)) INT_MAX); [done|lia].
Qed.

(** Any other string: [-EINVAL], and nothing is stored. *)
Lemma parse_compatible_unknown compatible chan s :
  channel_kind compatible = None ->
  axidma_parse_compatible_property compatible chan s = Some (- EINVAL, s).
Proof.
  intros Hk. unfold axidma_parse_compatible_property.
  destruct (channel_kind_cases compatible)
    as [[-> E]|[[-> E]|[[-> E]|[[-> E]|(_ & N1 & N2 & N3 & N4)]]]];
    try (by rewrite E in Hk).
  apply String.eqb_neq in N1, N2, N3, N4.
  by rewrite N1, N2, N3, N4.
Qed.

Lemma child_count_length (node : option device_node) :
  of_get_child_count node = Z.of_nat (length (children node)).
Proof. done. Qed.

(** A sub-channel with a kind: the channel gets its type and direction. *)
Lemma parse_channel_kind dma_node channel chan k c s :
  channel = 0 \/ channel = 1 ->
  sub_channel_kind dma_node channel = Some k ->
  channels (dev s) !! chan = Some c ->
  headroom 1 (dev s) ->
  axidma_of_parse_channel dma_node channel chan s
  = Some (0, {| dev := set_channels
                         (<[chan := {| dir := snd k; type := fst k;
                                       channel_id := channel_id c |}]>
                            (channels (dev s)))
                         (count_channel k (dev s));
                klog := klog s |}).
Proof.
  intros Hch Hk Hc Hroom. unfold sub_channel_kind in Hk.
  case_decide as Hlen; [|done].
  unfold axidma_of_parse_channel. rewrite child_count_length.
  destruct (Z.ltb_spec (Z.of_nat (length (children dma_node))) 1); [lia|].
  destruct (Z.gtb_spec (Z.of_nat (length (children dma_node))) 2); [lia|].
  cbv zeta. rewrite selected_child by done. unfold type_tag in Hk.
  destruct (of_property_read_string (children dma_node !! Z.to_nat channel)
              "compatible") as [compatible|] eqn:Hread; [|done].
  destruct (read_string_found _ _ _ Hread) as [p ->].
  unfold bind. rewrite (parse_compatible_known _ _ _ _ _ Hk Hc Hroom).
  done.
Qed.

(** A sub-channel without a kind: [-EINVAL], one message, nothing stored. *)
Lemma parse_channel_no_kind dma_node channel chan s :
  channel = 0 \/ channel = 1 ->
  sub_channel_kind dma_node channel = None ->
  exists m,
    axidma_of_parse_channel dma_node channel chan s
    = Some (- EINVAL, {| dev := dev s; klog := klog s ++ [m] |}).
Proof.
  intros Hch Hk. unfold sub_channel_kind in Hk.
  unfold axidma_of_parse_channel. rewrite child_count_length.
  destruct (Z.ltb_spec (Z.of_nat (length (children dma_node))) 1);
    [by eexists|].
  destruct (Z.gtb_spec (Z.of_nat (length (children dma_node))) 2);
    [by eexists|].
  case_decide as Hlen; [|lia].
  cbv zeta. rewrite selected_child by done. unfold type_tag in Hk.
  destruct (of_find_property (children dma_node !! Z.to_nat channel)
              "compatible"); [|by eexists].
  destruct (of_property_read_string (children dma_node !! Z.to_nat channel)
              "compatible") as [compatible|]; [|by eexists].
  unfold bind. rewrite (parse_compatible_unknown _ _ _ Hk). simpl.
  by eexists.
Qed.

(** ** One iteration of the loop *)

Lemma body_recorded driver i k c s :
  0 <= i ->
  reference_kind driver i = Some k ->
  channels (dev s) !! Z.to_nat i = Some c ->
  headroom 1 (dev s) ->
  parse_dma_nodes_body driver i s
  = Some (None, {| dev := record_channel i k (dev s); klog := klog s |}).
Proof.
  intros Hi Hk Hc Hroom. unfold reference_kind in Hk.
  unfold parse_dma_nodes_body.
  destruct (of_parse_phandle_with_args driver "dmas" "#dma-cells" i)
    as [pa|] eqn:Hpa; [|done].
  cbv beta iota zeta. rewrite (parse_phandle_args_count _ _ _ _ _ Hpa).
  destruct (args pa) as [|a rest]; [done|]. cbn [nth length].
  case_decide as Hsel; [|done].
  destruct (Z.ltb_spec (Z.of_nat (S (length rest))) 1); [lia|].
  replace (negb (u32_to_int a =? 0) && negb (u32_to_int a =? 1)) with false
    by (destruct Hsel as [-> | ->]; done).
  unfold bind. rewrite (parse_channel_kind _ _ _ _ _ _ Hsel Hk Hc Hroom).
  simpl. unfold store_chan. simpl.
  rewrite list_lookup_insert_eq by (by eapply lookup_lt_Some).
  rewrite list_insert_insert_eq. unfold ret, record_channel.
  do 3 f_equal. destruct k as [[] []]; done.
Qed.

Lemma body_rejected driver i s :
  reference_kind driver i = None ->
  exists rc m,
    rc < 0 /\
    parse_dma_nodes_body driver i s
    = Some (Some rc, {| dev := dev s; klog := klog s ++ [m] |}).
Proof.
  intros Hk. unfold reference_kind in Hk. unfold parse_dma_nodes_body.
  destruct (of_parse_phandle_with_args driver "dmas" "#dma-cells" i)
    as [pa|e] eqn:Hpa.
  2:{ exists (Z.neg e). eexists. split; [lia|done]. }
  cbv beta iota zeta. rewrite (parse_phandle_args_count _ _ _ _ _ Hpa).
  destruct (args pa) as [|a rest]; cbn [nth length].
  { exists (- EINVAL). eexists. split; [done|done]. }
  destruct (Z.ltb_spec (Z.of_nat (S (length rest))) 1); [lia|].
  case_decide as Hsel.
  - replace (negb (u32_to_int a =? 0) && negb (u32_to_int a =? 1)) with false
      by (destruct Hsel as [-> | ->]; done).
    destruct (parse_channel_no_kind (np pa) _ (Z.to_nat i) s Hsel Hk)
      as [m Hm].
    exists (- EINVAL), m. split; [done|]. unfold bind. by rewrite Hm.
  - replace (negb (u32_to_int a =? 0) && negb (u32_to_int a =? 1)) with true.
    { exists (- EINVAL). eexists. split; done. }
    symmetry. apply andb_true_iff. split; apply negb_true_iff, Z.eqb_neq; tauto.
Qed.

(** ** The loop bound

    No store of the loop body reaches [dev->num_chans], which is why the
    loop can be unrolled over the value read at its entry. *)

Create HintDb frame.

Lemma keeps_ret {A} (a : A) : keeps_num_chans (ret a).
Proof. intros s a' s' H. by injection H as _ <-. Qed.

Lemma keeps_bind {A B} (m : M A) (k : A -> M B) :
  keeps_num_chans m -> (forall a, keeps_num_chans (k a)) ->
  keeps_num_chans (bind m k).
Proof.
  intros Hm Hk s b s'' H. unfold bind in H.
  destruct (m s) as [[a s']|] eqn:E; [|done].
  rewrite (Hk a s' b s'' H). by eapply Hm.
Qed.

Lemma keeps_node_err node m : keeps_num_chans (axidma_node_err node m).
Proof. intros s a s' H. by injection H as _ <-. Qed.

Lemma keeps_store_chan chan upd : keeps_num_chans (store_chan chan upd).
Proof.
  intros s a s' H. unfold store_chan in H.
  destruct (channels (dev s) !! chan); [|done]. by injection H as _ <-.
Qed.

Lemma keeps_increment field set :
  (forall v d, num_chans (set v d) = num_chans d) ->
  keeps_num_chans (increment field set).
Proof.
  intros Hset s a s' H. unfold increment in H.
  destruct (field (dev s) <? INT_MAX); [|done].
  injection H as _ <-. apply Hset.
Qed.

#[local] Hint Resolve keeps_ret keeps_node_err keeps_store_chan : frame.
#[local] Hint Extern 1 (keeps_num_chans (bind _ _)) =>
  apply keeps_bind; [|intros ?] : frame.
#[local] Hint Extern 1 (keeps_num_chans (increment _ _)) =>
  apply keeps_increment; intros ? ?; reflexivity : frame.
#[local] Hint Extern 2 (keeps_num_chans (if ?b then _ else _)) =>
  destruct b : frame.
#[local] Hint Extern 2 (keeps_num_chans (match ?x with _ => _ end)) =>
  destruct x : frame.

Lemma keeps_parse_compatible compatible chan :
  keeps_num_chans (axidma_parse_compatible_property compatible chan).
Proof. unfold axidma_parse_compatible_property. auto 12 with frame. Qed.

Lemma keeps_parse_channel dma_node channel chan :
  keeps_num_chans (axidma_of_parse_channel dma_node channel chan).
Proof.
  pose proof keeps_parse_compatible.
  unfold axidma_of_parse_channel. cbv zeta. auto 12 with frame.
Qed.

Lemma keeps_body driver i : keeps_num_chans (parse_dma_nodes_body driver i).
Proof.
  pose proof keeps_parse_channel.
  unfold parse_dma_nodes_body. cbv zeta. auto 12 with frame.
Qed.

Lemma keeps_loop driver n : forall i,
  keeps_num_chans (parse_dma_nodes_loop driver n i).
Proof.
  pose proof keeps_body.
  induction n as [|n IH]; intros i; simpl; auto 12 with frame.
Qed.

(** ** The device structure after a run of recorded channels *)

Lemma count_channel_channels k d : channels (count_channel k d) = channels d.
Proof. by destruct k as [[] []]. Qed.

Lemma count_channel_num_chans k d : num_chans (count_channel k d) = num_chans d.
Proof. by destruct k as [[] []]. Qed.

Lemma record_channel_channels i k d :
  channels (record_channel i k d)
  = <[Z.to_nat i := descriptor i k]> (channels d).
Proof. unfold record_channel. simpl. by rewrite count_channel_channels. Qed.

Lemma record_channel_headroom n i k d :
  headroom (n + 1) d -> headroom n (record_channel i k d).
Proof.
  unfold headroom. intros (? & ? & ?).
  destruct k as [[] []]; simpl; lia.
Qed.

Lemma headroom_weaken n m d : m <= n -> headroom n d -> headroom m d.
Proof. unfold headroom. lia. Qed.

Lemma record_channels_length ks : forall i d,
  length (channels (record_channels i ks d)) = length (channels d).
Proof.
  induction ks as [|k ks IH]; intros i d; simpl; [done|].
  by rewrite IH, record_channel_channels, length_insert.
Qed.

Lemma record_channels_num_chans ks : forall i d,
  num_chans (record_channels i ks d) = num_chans d.
Proof.
  induction ks as [|k ks IH]; intros i d; simpl; [done|].
  rewrite IH. unfold record_channel. simpl. apply count_channel_num_chans.
Qed.

(** Indices outside the run keep their descriptor. *)
Lemma record_channels_lookup_other ks : forall i d (j : nat),
  0 <= i ->
  (j < Z.to_nat i \/ Z.to_nat i + length ks <= j)%nat ->
  channels (record_channels i ks d) !! j = channels d !! j.
Proof.
  induction ks as [|k ks IH]; intros i d j Hi Hj; simpl; [done|].
  simpl in Hj. rewrite IH by lia.
  rewrite record_channel_channels. apply list_lookup_insert_ne. lia.
Qed.

(** The [j]-th channel of the run is at index [i + j], with that index as
    its id. *)
Lemma record_channels_lookup ks : forall i d (j : nat) k,
  0 <= i ->
  (Z.to_nat i + length ks <= length (channels d))%nat ->
  ks !! j = Some k ->
  channels (record_channels i ks d) !! (Z.to_nat i + j)%nat
  = Some (descriptor (i + Z.of_nat j) k).
Proof.
  induction ks as [|k0 ks IH]; intros i d j k Hi Hlen Hj; [done|].
  simpl in Hlen. destruct j as [|j]; simpl in Hj |- *.
  - injection Hj as ->.
    rewrite record_channels_lookup_other by lia.
    rewrite record_channel_channels, Nat.add_0_r, Z.add_0_r.
    apply list_lookup_insert_eq. lia.
  - replace (Z.to_nat i + S j)%nat with (Z.to_nat (i + 1) + j)%nat by lia.
    replace (i + Z.of_nat (S j)) with (i + 1 + Z.of_nat j) by lia.
    apply IH; [lia | | done].
    rewrite record_channel_channels, length_insert. lia.
Qed.

Lemma count_kind_cons k k' ks :
  count_kind k (k' :: ks)
  = (if decide (k' = k) then 1 else 0) + count_kind k ks.
Proof.
  unfold count_kind. rewrite filter_cons. case_decide; simpl length; lia.
Qed.

(** The counters after a run: the VDMA receive channels are added to
    [num_dma_rx_chans], and [num_vdma_rx_chans] keeps its value. *)
Lemma record_channels_counters ks : forall i d,
  let d' := record_channels i ks d in
  num_dma_tx_chans d'
    = num_dma_tx_chans d + count_kind (AXIDMA_DMA, AXIDMA_WRITE) ks /\
  num_dma_rx_chans d'
    = num_dma_rx_chans d + count_kind (AXIDMA_DMA, AXIDMA_READ) ks
      + count_kind (AXIDMA_VDMA, AXIDMA_READ) ks /\
  num_vdma_tx_chans d'
    = num_vdma_tx_chans d + count_kind (AXIDMA_VDMA, AXIDMA_WRITE) ks /\
  num_vdma_rx_chans d' = num_vdma_rx_chans d.
Proof.
  induction ks as [|k ks IH]; intros i d; simpl.
  - unfold count_kind. simpl. lia.
  - destruct (IH (i + 1) (record_channel i k d)) as (-> & -> & -> & ->).
    rewrite !count_kind_cons.
    destruct k as [[] []]; repeat case_decide; try done; simpl; lia.
Qed.

Lemma record_channels_total ks i d :
  let d' := record_channels i ks d in
  num_dma_tx_chans d' + num_dma_rx_chans d'
    + num_vdma_tx_chans d' + num_vdma_rx_chans d'
  = num_dma_tx_chans d + num_dma_rx_chans d
    + num_vdma_tx_chans d + num_vdma_rx_chans d + Z.of_nat (length ks).
Proof.
  revert i d. induction ks as [|k ks IH]; intros i d; simpl; [lia|].
  rewrite IH. destruct k as [[] []]; simpl; lia.
Qed.

(** ** The loop *)

Lemma loop_records driver ks : forall n i s,
  0 <= i ->
  (forall (j : nat) k,
     ks !! j = Some k -> reference_kind driver (i + Z.of_nat j) = Some k) ->
  (Z.to_nat i + length ks <= length (channels (dev s)))%nat ->
  headroom (Z.of_nat (length ks)) (dev s) ->
  parse_dma_nodes_loop driver (length ks + n) i s
  = parse_dma_nodes_loop driver n (i + Z.of_nat (length ks))
      {| dev := record_channels i ks (dev s); klog := klog s |}.
Proof.
  induction ks as [|k ks IH]; intros n i s Hi Hks Hlen Hroom.
  - simpl. rewrite Z.add_0_r. by destruct s.
  - simpl in Hlen. simpl length in Hroom.
    destruct (lookup_lt_is_Some_2 (channels (dev s)) (Z.to_nat i)) as [c Hc];
      [lia|].
    simpl. unfold bind.
    rewrite (body_recorded driver i k c s Hi); [| |done|].
    + rewrite IH.
      * simpl. f_equal. lia.
      * lia.
      * intros j k' Hj. replace (i + 1 + Z.of_nat j) with (i + Z.of_nat (S j))
          by lia. by apply Hks.
      * cbn [dev]. rewrite record_channel_channels, length_insert. lia.
      * cbn [dev]. apply record_channel_headroom.
        eapply headroom_weaken; [|done]. lia.
    + specialize (Hks 0%nat k eq_refl). by rewrite Z.add_0_r in Hks.
    + eapply headroom_weaken; [|done]. lia.
Qed.

Lemma reset_counts_headroom n d : n <= INT_MAX -> headroom n (reset_counts d).
Proof. unfold headroom. simpl. lia. Qed.

Lemma parse_dma_nodes_start pdev d l :
  axidma_of_parse_dma_nodes pdev {| dev := d; klog := l |}
  = parse_dma_nodes_loop (of_node pdev) (Z.to_nat (num_chans d)) 0
      {| dev := reset_counts d; klog := l |}.
Proof. done. Qed.

(** Every reference up to [num_chans] has a kind: the parser returns 0 and
    leaves the recorded channels. *)
Lemma parse_dma_nodes_all pdev ks d l :
  declares pdev ks ->
  num_chans d = Z.of_nat (length ks) ->
  (length ks <= length (channels d))%nat ->
  Z.of_nat (length ks) <= INT_MAX ->
  axidma_of_parse_dma_nodes pdev {| dev := d; klog := l |}
  = Some (0, {| dev := record_channels 0 ks (reset_counts d); klog := l |}).
Proof.
  intros Hks Hn Hlen Hmax. rewrite parse_dma_nodes_start, Hn, Nat2Z.id.
  rewrite <- (Nat.add_0_r (length ks)).
  rewrite loop_records; simpl; try done; try lia;
    try (by apply reset_counts_headroom).
Qed.

(** The counters after a successful run over the channels [ks]: transmit
    channels are counted by engine type, every receive channel is counted in
    [num_dma_rx_chans], and [num_vdma_rx_chans] is 0. *)
Lemma parse_dma_nodes_counters pdev ks d l :
  declares pdev ks ->
  num_chans d = Z.of_nat (length ks) ->
  (length ks <= length (channels d))%nat ->
  Z.of_nat (length ks) <= INT_MAX ->
  exists d',
    axidma_of_parse_dma_nodes pdev {| dev := d; klog := l |}
    = Some (0, {| dev := d'; klog := l |}) /\
    num_dma_tx_chans d' = count_kind (AXIDMA_DMA, AXIDMA_WRITE) ks /\
    num_dma_rx_chans d'
    = count_kind (AXIDMA_DMA, AXIDMA_READ) ks
      + count_kind (AXIDMA_VDMA, AXIDMA_READ) ks /\
    num_vdma_tx_chans d' = count_kind (AXIDMA_VDMA, AXIDMA_WRITE) ks /\
    num_vdma_rx_chans d' = 0.
Proof.
  intros Hks Hn Hlen Hmax. eexists. split; [by apply parse_dma_nodes_all|].
  destruct (record_channels_counters ks 0 (reset_counts d))
    as (-> & -> & -> & ->).
  simpl. repeat split; lia.
Qed.

(** The references before index [length ks] have a kind and the next one
    has none: the parser returns the error of that reference and leaves the
    channels recorded before it. *)
Lemma parse_dma_nodes_first_error pdev ks d l :
  declares pdev ks ->
  reference_kind (of_node pdev) (Z.of_nat (length ks)) = None ->
  Z.of_nat (length ks) < num_chans d ->
  (length ks <= length (channels d))%nat ->
  Z.of_nat (length ks) <= INT_MAX ->
  exists rc m,
    rc < 0 /\
    axidma_of_parse_dma_nodes pdev {| dev := d; klog := l |}
    = Some (rc, {| dev := record_channels 0 ks (reset_counts d);
                   klog := l ++ [m] |}).
Proof.
  intros Hks Hbad Hn Hlen Hmax. rewrite parse_dma_nodes_start.
  replace (Z.to_nat (num_chans d))
    with (length ks + S (Z.to_nat (num_chans d) - length ks - 1))%nat by lia.
  rewrite loop_records; cbn [dev klog]; try done; try lia;
    try (by apply reset_counts_headroom).
  rewrite Z.add_0_l. cbn [parse_dma_nodes_loop].
  destruct (body_rejected (of_node pdev) (Z.of_nat (length ks))
              {| dev := record_channels 0 ks (reset_counts d); klog := l |}
              Hbad) as (rc & m & Hrc & Hbody).
  exists rc, m. split; [done|]. unfold bind. by rewrite Hbody.
Qed.

(** ** The claims on the parser *)

(** C3, the code at a device tree with one VDMA receive channel. The parser
    returns 0 and records a VDMA channel of direction read, but the count
    of VDMA receive channels stays 0: the increment went to the count of
    DMA receive channels. *)
Theorem vdma_rx_counted_as_dma_rx :
  exists d',
    axidma_of_parse_dma_nodes vdma_rx_tree
      (entry (with_num_chans 1 example_device))
    = Some (0, entry d') /\
    channels d' !! 0%nat
    = Some {| dir := AXIDMA_READ; type := AXIDMA_VDMA; channel_id := 0 |} /\
    num_vdma_rx_chans d' = 0 /\
    num_dma_rx_chans d' = 1.
Proof. eexists. vm_compute. done. Qed.

(** C4, as the code has it. When the references before index [length ks]
    have a kind and the next one, still below [num_chans], has none, the
    parser returns the negative code of that reference at once, with one
    message. It does not undo its stores: the descriptors of the channels
    before the failing reference and their counts are in the device
    structure, and the descriptors from the failing index on are the ones
    the caller passed. *)
Theorem resolve_stops_at_first_error (pdev : platform_device)
    (ks : list (axidma_type * axidma_dir)) (d : axidma_device)
    (l : list log_entry) :
  declares pdev ks ->
  reference_kind (of_node pdev) (Z.of_nat (length ks)) = None ->
  Z.of_nat (length ks) < num_chans d ->
  (length ks <= length (channels d))%nat ->
  num_chans d <= INT_MAX ->
  exists rc m d',
    rc < 0 /\
    axidma_of_parse_dma_nodes pdev {| dev := d; klog := l |}
    = Some (rc, {| dev := d'; klog := l ++ [m] |}) /\
    (forall (j : nat) k,
       ks !! j = Some k ->
       channels d' !! j = Some (descriptor (Z.of_nat j) k)) /\
    (forall j : nat,
       (length ks <= j)%nat -> channels d' !! j = channels d !! j) /\
    num_dma_tx_chans d' + num_dma_rx_chans d'
      + num_vdma_tx_chans d' + num_vdma_rx_chans d'
    = Z.of_nat (length ks).
Proof.
  intros Hks Hbad Hn Hlen Hmax.
  destruct (parse_dma_nodes_first_error pdev ks d l)
    as (rc & m & Hrc & Hrun); try done; [lia|].
  exists rc, m, (record_channels 0 ks (reset_counts d)).
  split; [done|]. split; [done|]. split; [|split].
  - intros j k Hj.
    apply (record_channels_lookup ks 0 (reset_counts d) j k); [lia|simpl; lia|done].
  - intros j Hj. rewrite record_channels_lookup_other by (simpl; lia). done.
  - rewrite record_channels_total. simpl. lia.
Qed.

Lemma resolve_stops_at_first_error_witness :
  exists rc m d',
    rc < 0 /\
    axidma_of_parse_dma_nodes bad_selector_tree
      {| dev := example_device; klog := [] |}
    = Some (rc, {| dev := d'; klog := [] ++ [m] |}) /\
    (forall (j : nat) k,
       [(AXIDMA_DMA, AXIDMA_WRITE)] !! j = Some k ->
       channels d' !! j = Some (descriptor (Z.of_nat j) k)) /\
    (forall j : nat,
       (1 <= j)%nat -> channels d' !! j = channels example_device !! j) /\
    num_dma_tx_chans d' + num_dma_rx_chans d'
      + num_vdma_tx_chans d' + num_vdma_rx_chans d'
    = 1.
Proof.
  apply (resolve_stops_at_first_error bad_selector_tree
           [(AXIDMA_DMA, AXIDMA_WRITE)] example_device []).
  - intros [|j] k H; [|done]. injection H as <-. reflexivity.
  - reflexivity.
  - simpl. lia.
  - simpl. lia.
  - vm_compute. discriminate.
Defined.

(** C4, counterexample. The second reference of the tree has selector 2.
    The parser returns [-EINVAL], and the device structure it was given now
    holds the descriptor of the first channel and a transmit count of 1. *)
Lemma failed_resolve_leaves_partial_topology :
  exists d',
    axidma_of_parse_dma_nodes bad_selector_tree (entry example_device)
    = Some (- EINVAL,
            {| dev := d';
               klog := [(Some "axidma-chrdev", MsgChannelArgInvalid 1)] |}) /\
    channels d' !! 0%nat
    = Some {| dir := AXIDMA_WRITE; type := AXIDMA_DMA; channel_id := 0 |} /\
    channels d' !! 0%nat <> channels example_device !! 0%nat /\
    num_dma_tx_chans d' = 1.
Proof. eexists. vm_compute. repeat split; done. Qed.

(** C5. When the device tree declares the channels [ks] and the device
    structure has [num_chans = length ks] and room for as many descriptors,
    the parser returns 0 without a message; the first [length ks]
    descriptors are those of [ks] in declaration order, the [i]-th with
    [channel_id = i]; the descriptors behind them are untouched; and the
    four counters sum to [length ks]. *)
Theorem resolve_in_declaration_order (pdev : platform_device)
    (ks : list (axidma_type * axidma_dir)) (d : axidma_device)
    (l : list log_entry) :
  declares pdev ks ->
  num_chans d = Z.of_nat (length ks) ->
  (length ks <= length (channels d))%nat ->
  num_chans d <= INT_MAX ->
  exists d',
    axidma_of_parse_dma_nodes pdev {| dev := d; klog := l |}
    = Some (0, {| dev := d'; klog := l |}) /\
    take (length ks) (channels d')
    = imap (fun i k => descriptor (Z.of_nat i) k) ks /\
    drop (length ks) (channels d') = drop (length ks) (channels d) /\
    num_dma_tx_chans d' + num_dma_rx_chans d'
      + num_vdma_tx_chans d' + num_vdma_rx_chans d'
    = Z.of_nat (length ks).
Proof.
  intros Hks Hn Hlen Hmax.
  exists (record_channels 0 ks (reset_counts d)).
  split; [apply parse_dma_nodes_all; try done; lia|].
  split; [|split].
  - apply list_eq. intros j. rewrite list_lookup_imap.
    destruct (ks !! j) as [k|] eqn:Hj; simpl.
    + rewrite lookup_take_lt by (by eapply lookup_lt_Some).
      apply (record_channels_lookup ks 0 (reset_counts d) j k);
        [lia | simpl; lia | done].
    + apply lookup_take_ge. by apply lookup_ge_None.
  - apply list_eq. intros j. rewrite !lookup_drop.
    rewrite record_channels_lookup_other by (simpl; lia). done.
  - rewrite record_channels_total. simpl. lia.
Qed.

Lemma resolve_in_declaration_order_witness :
  exists d',
    axidma_of_parse_dma_nodes tx_rx_tree
      {| dev := example_device; klog := [] |}
    = Some (0, {| dev := d'; klog := [] |}) /\
    take 2 (channels d')
    = [ {| dir := AXIDMA_WRITE; type := AXIDMA_DMA; channel_id := 0 |};
        {| dir := AXIDMA_READ; type := AXIDMA_DMA; channel_id := 1 |} ] /\
    drop 2 (channels d') = drop 2 (channels example_device) /\
    num_dma_tx_chans d' + num_dma_rx_chans d'
      + num_vdma_tx_chans d' + num_vdma_rx_chans d'
    = 2.
Proof.
  apply (resolve_in_declaration_order tx_rx_tree
           [(AXIDMA_DMA, AXIDMA_WRITE); (AXIDMA_DMA, AXIDMA_READ)]
           example_device []).
  - intros [|[|j]] k H; [| |done]; injection H as <-; reflexivity.
  - reflexivity.
  - simpl. lia.
  - vm_compute. discriminate.
Defined.

Lemma parse_channel_enter dma_node channel chan s :
  channel = 0 \/ channel = 1 ->
  (1 <= length (children dma_node) <= 2)%nat ->
  axidma_of_parse_channel dma_node channel chan s
  = match of_find_property (children dma_node !! Z.to_nat channel)
            "compatible" with
    | None =>
        (axidma_node_err (children dma_node !! Z.to_nat channel)
           MsgCompatibleMissing ;;
         ret (- EINVAL)) s
    | Some _ =>
        match of_property_read_string
                (children dma_node !! Z.to_nat channel) "compatible" with
        | OfErr _ =>
            (axidma_node_err (children dma_node !! Z.to_nat channel)
               MsgCompatibleUnreadable ;;
             ret (- EINVAL)) s
        | OfOk compatible =>
            (rc <- axidma_parse_compatible_property compatible chan ;;
             if rc <? 0
             then axidma_node_err (children dma_node !! Z.to_nat channel)
                    MsgCompatibleInvalid ;;
                  ret rc
             else ret 0) s
        end
    end.
Proof.
  intros Hch Hlen. unfold axidma_of_parse_channel.
  rewrite child_count_length.
  destruct (Z.ltb_spec (Z.of_nat (length (children dma_node))) 1); [lia|].
  destruct (Z.gtb_spec (Z.of_nat (length (children dma_node))) 2); [lia|].
  cbv zeta. rewrite selected_child by done.
  destruct (of_find_property _ _); [|done].
  by destruct (of_property_read_string _ _).
Qed.

(** C6, as the code has it. For a DMA node with one or two children and a
    selector of 0 or 1, the type tag of the selected child (its
    ['compatible'] string) decides the outcome:
    ["xlnx,axi-dma-mm2s-channel"] gives (DMA, write),
    ["xlnx,axi-dma-s2mm-channel"] gives (DMA, read),
    ["xlnx,axi-vdma-mm2s-channel"] gives (VDMA, write),
    ["xlnx,axi-vdma-s2mm-channel"] gives (VDMA, read);
    any other string fails with [-EINVAL] as an invalid property, and a
    child without a readable tag (or no child at that position) fails with
    [-EINVAL] as a missing or unreadable property. *)
Theorem type_tag_vocabulary (dma_node : option device_node) (channel : Z)
    (chan : nat) (c : axidma_chan) (s : kstate) :
  channel = 0 \/ channel = 1 ->
  (1 <= length (children dma_node) <= 2)%nat ->
  channels (dev s) !! chan = Some c ->
  headroom 1 (dev s) ->
  let tag := type_tag (children dma_node !! Z.to_nat channel) in
  (tag = Some "xlnx,axi-dma-mm2s-channel" ->
   channel_resolves dma_node channel chan s AXIDMA_DMA AXIDMA_WRITE) /\
  (tag = Some "xlnx,axi-dma-s2mm-channel" ->
   channel_resolves dma_node channel chan s AXIDMA_DMA AXIDMA_READ) /\
  (tag = Some "xlnx,axi-vdma-mm2s-channel" ->
   channel_resolves dma_node channel chan s AXIDMA_VDMA AXIDMA_WRITE) /\
  (tag = Some "xlnx,axi-vdma-s2mm-channel" ->
   channel_resolves dma_node channel chan s AXIDMA_VDMA AXIDMA_READ) /\
  (forall other,
     tag = Some other ->
     other <> "xlnx,axi-dma-mm2s-channel" ->
     other <> "xlnx,axi-dma-s2mm-channel" ->
     other <> "xlnx,axi-vdma-mm2s-channel" ->
     other <> "xlnx,axi-vdma-s2mm-channel" ->
     channel_fails dma_node channel chan s MsgCompatibleInvalid) /\
  (tag = None ->
   channel_fails dma_node channel chan s MsgCompatibleMissing \/
   channel_fails dma_node channel chan s MsgCompatibleUnreadable).
Proof.
  intros Hch Hlen Hc Hroom tag.
  assert (Hok : forall compatible t r,
            tag = Some compatible ->
            channel_kind compatible = Some (t, r) ->
            channel_resolves dma_node channel chan s t r).
  { intros compatible t r Htag Hk. exists
      (set_channels
         (<[chan := {| dir := r; type := t; channel_id := channel_id c |}]>
            (channels (dev s)))
         (count_channel (t, r) (dev s))), c.
    split; [done|]. split.
    - apply (parse_channel_kind dma_node channel chan (t, r) c s);
        try done.
      unfold sub_channel_kind. case_decide; [|lia].
      fold tag. by rewrite Htag.
    - simpl. apply list_lookup_insert_eq. by eapply lookup_lt_Some. }
  repeat split.
  - intros Htag. by eapply Hok.
  - intros Htag. by eapply Hok.
  - intros Htag. by eapply Hok.
  - intros Htag. by eapply Hok.
  - intros other Htag N1 N2 N3 N4. unfold channel_fails. eexists.
    rewrite parse_channel_enter by done. unfold tag, type_tag in Htag.
    destruct (of_property_read_string _ _) as [compatible|] eqn:Hread;
      [|done].
    injection Htag as ->.
    destruct (read_string_found _ _ _ Hread) as [p ->].
    unfold bind. rewrite parse_compatible_unknown; [done|].
    unfold channel_kind. by repeat case_decide.
  - intros Htag. unfold channel_fails.
    rewrite !parse_channel_enter by done. unfold tag, type_tag in Htag.
    destruct (of_find_property _ _); [|left; by eexists].
    destruct (of_property_read_string _ _); [done|right; by eexists].
Qed.

Lemma type_tag_vocabulary_witness :
  channel_resolves (Some axi_dma) 1 0 (entry example_device)
    AXIDMA_DMA AXIDMA_READ.
Proof.
  apply (type_tag_vocabulary (Some axi_dma) 1 0
           {| dir := AXIDMA_READ; type := AXIDMA_VDMA; channel_id := -1 |}
           (entry example_device)).
  - right. reflexivity.
  - simpl. lia.
  - reflexivity.
  - vm_compute. repeat split; discriminate.
  - reflexivity.
Defined.

(** C6, counterexample. The string ["mm2s-dma"] is not a tag the parser
    knows: on a DMA node whose only channel node carries it, the parser
    returns [-EINVAL] as for any invalid ['compatible'] property. *)
Lemma short_tag_rejected :
  axidma_parse_compatible_property "mm2s-dma" 0 (entry example_device)
  = Some (- EINVAL, entry example_device) /\
  axidma_of_parse_channel (Some (dma_core "dma@40400000" ["mm2s-dma"])) 0 0
    (entry example_device)
  = Some (- EINVAL,
          {| dev := example_device;
             klog := [(Some "dma-channel", MsgCompatibleInvalid)] |}).
Proof. vm_compute. done. Qed.

(** C7, as the code has it. For a reference that resolves to a node with
    argument cells: without any cell the iteration fails with [-EINVAL]
    (missing argument); with a first cell other than 0 or 1 it fails with
    [-EINVAL] (invalid channel); with a first cell of 0 or 1 it fails with
    [-EINVAL] when the node has no child or more than two children. Cells
    after the first are not looked at: when the first cell selects a
    sub-channel with a kind, which needs one or two children, the channel
    is recorded whatever cells follow. *)
Theorem reference_checks (driver_node : option device_node) (i : Z)
    (pa : of_phandle_args) (s : kstate) :
  of_parse_phandle_with_args driver_node "dmas" "#dma-cells" i = OfOk pa ->
  (args pa = [] ->
   reference_fails driver_node i s (MsgChannelArgMissing i)) /\
  (forall a rest,
     args pa = a :: rest ->
     u32_to_int a <> 0 -> u32_to_int a <> 1 ->
     reference_fails driver_node i s (MsgChannelArgInvalid i)) /\
  (forall a rest,
     args pa = a :: rest ->
     u32_to_int a = 0 \/ u32_to_int a = 1 ->
     length (children (np pa)) = 0%nat ->
     reference_fails driver_node i s MsgNoChannelNodes) /\
  (forall a rest,
     args pa = a :: rest ->
     u32_to_int a = 0 \/ u32_to_int a = 1 ->
     (3 <= length (children (np pa)))%nat ->
     reference_fails driver_node i s MsgTooManyChannelNodes) /\
  (forall a rest k c,
     args pa = a :: rest ->
     u32_to_int a = 0 \/ u32_to_int a = 1 ->
     sub_channel_kind (np pa) (u32_to_int a) = Some k ->
     0 <= i ->
     channels (dev s) !! Z.to_nat i = Some c ->
     headroom 1 (dev s) ->
     (1 <= length (children (np pa)) <= 2)%nat /\
     parse_dma_nodes_body driver_node i s
     = Some (None, {| dev := record_channel i k (dev s); klog := klog s |})).
Proof.
  intros Hpa.
  assert (Hcount := parse_phandle_args_count _ _ _ _ _ Hpa).
  assert (Hsel : forall a, u32_to_int a = 0 \/ u32_to_int a = 1 ->
            negb (u32_to_int a =? 0) && negb (u32_to_int a =? 1) = false).
  { by intros a [-> | ->]. }
  repeat split.
  - intros Hargs. unfold reference_fails, parse_dma_nodes_body. eexists.
    rewrite Hpa. cbv beta iota zeta. rewrite Hcount, Hargs. done.
  - intros a rest Hargs N0 N1. unfold reference_fails, parse_dma_nodes_body. eexists.
    rewrite Hpa. cbv beta iota zeta. rewrite Hcount, Hargs. cbn [nth length].
    destruct (Z.ltb_spec (Z.of_nat (S (length rest))) 1); [lia|].
    apply Z.eqb_neq in N0, N1. by rewrite N0, N1.
  - intros a rest Hargs Ha Hkids. unfold reference_fails, parse_dma_nodes_body. eexists.
    rewrite Hpa. cbv beta iota zeta. rewrite Hcount, Hargs. cbn [nth length].
    destruct (Z.ltb_spec (Z.of_nat (S (length rest))) 1); [lia|].
    rewrite Hsel by done. unfold bind at 1, axidma_of_parse_channel.
    rewrite child_count_length, Hkids. done.
  - intros a rest Hargs Ha Hkids. unfold reference_fails, parse_dma_nodes_body. eexists.
    rewrite Hpa. cbv beta iota zeta. rewrite Hcount, Hargs. cbn [nth length].
    destruct (Z.ltb_spec (Z.of_nat (S (length rest))) 1); [lia|].
    rewrite Hsel by done. unfold bind at 1, axidma_of_parse_channel.
    rewrite child_count_length.
    destruct (Z.ltb_spec (Z.of_nat (length (children (np pa)))) 1); [lia|].
    destruct (Z.gtb_spec (Z.of_nat (length (children (np pa)))) 2); [|lia].
    done.
  - unfold sub_channel_kind in *. case_decide; [lia|done].
  - unfold sub_channel_kind in *. case_decide; [lia|done].
  - eapply body_recorded; try done.
    unfold reference_kind. rewrite Hpa.
    match goal with H : args pa = _ |- _ => rewrite H end.
    by case_decide.
Qed.

Lemma reference_checks_witness :
  reference_fails (of_node bad_selector_tree) 1 (entry example_device)
    (MsgChannelArgInvalid 1).
Proof.
  refine (proj1 (proj2
    (reference_checks (of_node bad_selector_tree) 1
       {| np := Some axi_dma; args_count := 1; args := [2] |}
       (entry example_device) _)) 2 [] _ _ _).
  - reflexivity.
  - reflexivity.
  - vm_compute. discriminate.
  - vm_compute. discriminate.
Defined.

(** C7, counterexample. A reference with the two argument cells 0 and 5 is
    not rejected: the parser returns 0 and records the channel that the
    first cell selects. *)
Lemma two_argument_reference_accepted :
  exists d',
    axidma_of_parse_dma_nodes two_cells_tree
      (entry (with_num_chans 1 example_device))
    = Some (0, entry d') /\
    channels d' !! 0%nat
    = Some {| dir := AXIDMA_WRITE; type := AXIDMA_DMA; channel_id := 0 |}.
Proof. eexists. vm_compute. done. Qed.

(** ** The preflight count *)

Lemma count_strings_found node name :
  0 <= of_property_count_strings node name ->
  exists p, of_find_property node name = Some p.
Proof.
  unfold of_property_count_strings.
  destruct (of_find_property node name); [eauto|]. unfold EINVAL. lia.
Qed.

Lemma count_phandle_found node list_name cells_name :
  0 <= of_count_phandle_with_args node list_name cells_name ->
  exists p, of_find_property node list_name = Some p.
Proof.
  unfold of_count_phandle_with_args.
  destruct (of_find_property node list_name); [eauto|]. unfold ENOENT. lia.
Qed.

Lemma parse_phandle_same_list node node' list_name cells_name i :
  of_find_property node list_name = of_find_property node' list_name ->
  of_parse_phandle_with_args node list_name cells_name i
  = of_parse_phandle_with_args node' list_name cells_name i.
Proof. intros H. unfold of_parse_phandle_with_args. by rewrite H. Qed.

Lemma node_err_same_name node node' m :
  full_name <$> node = full_name <$> node' ->
  axidma_node_err node m = axidma_node_err node' m.
Proof. intros H. unfold axidma_node_err. by rewrite H. Qed.

Lemma body_same_list node node' i :
  full_name <$> node = full_name <$> node' ->
  of_find_property node "dmas" = of_find_property node' "dmas" ->
  parse_dma_nodes_body node i = parse_dma_nodes_body node' i.
Proof.
  intros Hname H. unfold parse_dma_nodes_body.
  rewrite (parse_phandle_same_list node node' _ _ _ H).
  by rewrite !(node_err_same_name node node' _ Hname).
Qed.

Lemma loop_same_list node node' n : forall i s,
  full_name <$> node = full_name <$> node' ->
  of_find_property node "dmas" = of_find_property node' "dmas" ->
  parse_dma_nodes_loop node n i s = parse_dma_nodes_loop node' n i s.
Proof.
  induction n as [|n IH]; intros i s Hname H; simpl; [done|].
  unfold bind. rewrite (body_same_list node node' i Hname H).
  destruct (parse_dma_nodes_body node' i s) as [[[rc|] s']|];
    [done | by apply IH | done].
Qed.

(** C8, as the code has it. [axidma_of_num_channels] returns the common
    length of the two lists when both counts are at least 1 and equal, and
    [-EINVAL] with one message otherwise; when both lists have entries and
    the lengths differ the message is the one on differing lengths.
    [axidma_of_parse_dma_nodes] makes none of these checks: it reads the
    reference list only, so two device trees whose driver nodes have the
    same name and the same ['dmas'] property give the same result whatever
    their ['dma-names'] are. *)
Theorem preflight_validation (pdev pdev' : platform_device) (s : kstate) :
  full_name <$> of_node pdev = full_name <$> of_node pdev' ->
  of_find_property (of_node pdev) "dmas"
    = of_find_property (of_node pdev') "dmas" ->
  let names := of_property_count_strings (of_node pdev) "dma-names" in
  let dmas := of_count_phandle_with_args (of_node pdev) "dmas" "#dma-cells" in
  (1 <= names /\ names = dmas ->
   axidma_of_num_channels pdev s = Some (names, s)) /\
  (1 <= names /\ 1 <= dmas /\ names <> dmas ->
   axidma_of_num_channels pdev s
   = Some (- EINVAL,
           {| dev := dev s;
              klog := klog s
                      ++ [(full_name <$> of_node pdev, MsgLengthsDiffer)] |}))
  /\
  (~ (1 <= names /\ names = dmas) ->
   exists m,
     axidma_of_num_channels pdev s
     = Some (- EINVAL, {| dev := dev s; klog := klog s ++ [m] |})) /\
  axidma_of_parse_dma_nodes pdev s = axidma_of_parse_dma_nodes pdev' s.
Proof.
  intros Hname Hsame names dmas.
  assert (Hrun : 1 <= names -> 1 <= dmas ->
            axidma_of_num_channels pdev s
            = (if negb (names =? dmas)
               then axidma_node_err (of_node pdev) MsgLengthsDiffer ;;
                    ret (- EINVAL)
               else ret names) s).
  { intros Hn Hd. unfold axidma_of_num_channels. cbv zeta.
    destruct (count_strings_found (of_node pdev) "dma-names") as [p ->];
      [fold names; lia|].
    destruct (count_phandle_found (of_node pdev) "dmas" "#dma-cells")
      as [q ->]; [fold dmas; lia|].
    fold names. fold dmas.
    destruct (Z.ltb_spec names 0); [lia|].
    destruct (Z.eqb_spec names 0); [lia|].
    destruct (Z.ltb_spec dmas 0); [lia|].
    destruct (Z.eqb_spec dmas 0); [lia|]. done. }
  repeat split.
  - intros [Hn He]. rewrite Hrun by lia.
    destruct (Z.eqb_spec names dmas); [done|lia].
  - intros (Hn & Hd & Hne). rewrite Hrun by lia.
    destruct (Z.eqb_spec names dmas); [lia|done].
  - intros Hbad. unfold axidma_of_num_channels. cbv zeta.
    fold names. fold dmas.
    destruct (of_find_property (of_node pdev) "dma-names");
      [|by eexists].
    destruct (of_find_property (of_node pdev) "dmas"); [|by eexists].
    destruct (Z.ltb_spec names 0); [by eexists|].
    destruct (Z.eqb_spec names 0); [by eexists|].
    destruct (Z.ltb_spec dmas 0); [by eexists|].
    destruct (Z.eqb_spec dmas 0); [by eexists|].
    destruct (Z.eqb_spec names dmas); [lia|by eexists].
  - destruct s as [d l]. rewrite !parse_dma_nodes_start.
    by apply loop_same_list.
Qed.

Lemma preflight_validation_witness :
  axidma_of_num_channels tx_rx_tree (entry example_device)
  = Some (2, entry example_device) /\
  axidma_of_parse_dma_nodes tx_rx_tree (entry example_device)
  = axidma_of_parse_dma_nodes tx_rx_tree_one_name (entry example_device).
Proof.
  pose proof (preflight_validation tx_rx_tree tx_rx_tree_one_name
                (entry example_device) eq_refl eq_refl)
    as (Hcount & _ & _ & Hsame).
  split; [|exact Hsame].
  apply Hcount. vm_compute. split; [discriminate|reflexivity].
Defined.

(** C8, counterexample. The tree has two names and one reference. The
    preflight count fails on the differing lengths, but the parser neither
    compares the lists nor reports a mismatch: run for one channel it
    returns 0, run for two channels it returns the [-ENOENT] of the
    phandle lookup for index 1. *)
Lemma mismatched_lists_not_checked_by_resolve :
  axidma_of_num_channels mismatched_tree (entry example_device)
  = Some (- EINVAL,
          {| dev := example_device;
             klog := [(Some "axidma-chrdev", MsgLengthsDiffer)] |}) /\
  (exists d',
     axidma_of_parse_dma_nodes mismatched_tree
       (entry (with_num_chans 1 example_device))
     = Some (0, entry d')) /\
  (exists d',
     axidma_of_parse_dma_nodes mismatched_tree
       (entry (with_num_chans 2 example_device))
     = Some (- ENOENT,
             {| dev := d';
                klog := [(Some "axidma-chrdev", MsgPhandle 1)] |})).
Proof. split; [|split]; [| eexists | eexists]; vm_compute; done. Qed.

(** C10. For a DMA node with exactly one child, [axidma_of_parse_channel]
    called with [channel = 1] finds no second child, returns [-EINVAL] with
    the message on the missing ['compatible'] property, and stores nothing:
    the device structure, and the descriptor behind [chan] with it, is
    unchanged. *)
Theorem second_sub_channel_of_single_child (dma_node : option device_node)
    (chan : nat) (s : kstate) :
  of_get_child_count dma_node = 1 ->
  of_get_next_child dma_node (of_get_next_child dma_node None) = None /\
  axidma_of_parse_channel dma_node 1 chan s
  = Some (- EINVAL,
          {| dev := dev s;
             klog := klog s ++ [(None, MsgCompatibleMissing)] |}).
Proof.
  intros Hcount. rewrite child_count_length in Hcount.
  assert (Hnone : children dma_node !! 1%nat = None).
  { apply lookup_ge_None. lia. }
  split.
  - by rewrite <- children_second.
  - rewrite parse_channel_enter by (auto; lia).
    change (Z.to_nat 1) with 1%nat. by rewrite Hnone.
Qed.

Lemma second_sub_channel_of_single_child_witness :
  of_get_next_child (Some axi_dma_tx)
    (of_get_next_child (Some axi_dma_tx) None) = None /\
  axidma_of_parse_channel (Some axi_dma_tx) 1 0 (entry example_device)
  = Some (- EINVAL,
          {| dev := example_device;
             klog := [] ++ [(None, MsgCompatibleMissing)] |}).
Proof.
  apply (second_sub_channel_of_single_child (Some axi_dma_tx) 0
           (entry example_device)).
  reflexivity.
Defined.

End OfProperties.

(** * Further properties of the device-tree parser *)
Section OfOutcomes.
Import AxidmaOf Examples.
Local Open Scope kmonad_scope.

(** ** Every outcome of the parsing functions *)

Lemma parse_compatible_outcome compatible chan s rc s' :
  axidma_parse_compatible_property compatible chan s = Some (rc, s') ->
  (channel_kind compatible = None /\ rc = - EINVAL /\ s' = s) \/
  (exists k c,
     channel_kind compatible = Some k /\ rc = 0 /\
     channels (dev s) !! chan = Some c /\
     s' = {| dev := set_channels
                      (<[chan := {| dir := snd k; type := fst k;
                                    channel_id := channel_id c |}]>
                         (channels (dev s)))
                      (count_channel k (dev s));
             klog := klog s |}).
Proof.
  intros H.
  destruct (channel_kind compatible) as [k|] eqn:Hk.
  - right. exists k.
    unfold axidma_parse_compatible_property in H.
    destruct (channel_kind_cases compatible)
      as [[-> E]|[[-> E]|[[-> E]|[[-> E]|[E _]]]]];
      rewrite E in Hk; try done; injection Hk as <-; simpl in H;
      unfold bind, store_chan, increment, ret in H; simpl in H;
      destruct (channels (dev s) !! chan) as [c|] eqn:Hc; try done;
      simpl in H;
      rewrite list_lookup_insert_eq in H by (by eapply lookup_lt_Some);
      simpl in H; rewrite list_insert_insert_eq in H;
      match type of H with
      | context [if ?b then _ else _] => destruct b; [|done]
      end; injection H as <- <-; by exists c.
  - left. rewrite parse_compatible_unknown in H by done.
    by injection H as <- <-.
Qed.

Lemma parse_channel_outcome dma_node channel chan s rc s' :
  channel = 0 \/ channel = 1 ->
  axidma_of_parse_channel dma_node channel chan s = Some (rc, s') ->
  (sub_channel_kind dma_node channel = None /\ rc = - EINVAL /\
   dev s' = dev s /\ exists e, klog s' = klog s ++ [e]) \/
  (exists k c,
     sub_channel_kind dma_node channel = Some k /\ rc = 0 /\
     channels (dev s) !! chan = Some c /\
     s' = {| dev := set_channels
                      (<[chan := {| dir := snd k; type := fst k;
                                    channel_id := channel_id c |}]>
                         (channels (dev s)))
                      (count_channel k (dev s));
             klog := klog s |}).
Proof.
  intros Hch H.
  destruct (sub_channel_kind dma_node channel) as [k|] eqn:Hk.
  - right. exists k. unfold sub_channel_kind in Hk.
    case_decide as Hlen; [|done].
    rewrite parse_channel_enter in H by done. unfold type_tag in Hk.
    destruct (of_property_read_string _ _) as [compatible|] eqn:Hread;
      [|done].
    destruct (read_string_found _ _ _ Hread) as [p Hp]. rewrite Hp in H.
    unfold bind in H.
    destruct (axidma_parse_compatible_property compatible chan s)
      as [[rc0 s0]|] eqn:E; [|done].
    apply parse_compatible_outcome in E
      as [(Hnone & _)|(k' & c & Hk' & -> & Hc & ->)]; [congruence|].
    assert (k' = k) as -> by congruence.
    simpl in H. injection H as <- <-. by exists c.
  - left. destruct (parse_channel_no_kind dma_node channel chan s Hch Hk)
      as [e He].
    rewrite He in H. injection H as <- <-. simpl. eauto.
Qed.

(** One reference: either the function is left with a negative code, one
    message and the device structure as before the reference, or the
    channel is recorded and nothing is logged. *)
Lemma body_outcome driver i s r s' :
  parse_dma_nodes_body driver i s = Some (r, s') ->
  (exists rc e,
     r = Some rc /\ rc < 0 /\ reference_kind driver i = None /\
     dev s' = dev s /\ klog s' = klog s ++ [e]) \/
  (exists k c,
     r = None /\ reference_kind driver i = Some k /\
     channels (dev s) !! Z.to_nat i = Some c /\
     s' = {| dev := record_channel i k (dev s); klog := klog s |}).
Proof.
  intros H.
  destruct (reference_kind driver i) as [k|] eqn:Hk.
  - right. exists k. unfold reference_kind in Hk.
    unfold parse_dma_nodes_body in H.
    destruct (of_parse_phandle_with_args driver "dmas" "#dma-cells" i)
      as [pa|] eqn:Hpa; [|done].
    cbv beta iota zeta in H.
    rewrite (parse_phandle_args_count _ _ _ _ _ Hpa) in H.
    destruct (args pa) as [|a rest]; [done|]. cbn [nth length] in H.
    case_decide as Hsel; [|done].
    destruct (Z.ltb_spec (Z.of_nat (S (length rest))) 1); [lia|].
    replace (negb (u32_to_int a =? 0) && negb (u32_to_int a =? 1))
      with false in H by (destruct Hsel as [-> | ->]; done).
    unfold bind at 1 in H.
    destruct (axidma_of_parse_channel (np pa) (u32_to_int a) (Z.to_nat i) s)
      as [[rc0 s0]|] eqn:E; [|done].
    apply parse_channel_outcome in E
      as [(Hnone & _)|(k' & c & Hk' & -> & Hc & ->)]; [congruence| |done].
    assert (k' = k) as -> by congruence.
    exists c. simpl in H. unfold bind, store_chan, ret in H. simpl in H.
    rewrite list_lookup_insert_eq in H by (by eapply lookup_lt_Some).
    rewrite list_insert_insert_eq in H. injection H as <- <-.
    repeat split; try done. unfold record_channel.
    by destruct k as [[] []].
  - left. destruct (body_rejected driver i s Hk) as (rc & e & Hrc & He).
    rewrite He in H. injection H as <- <-. exists rc, e. by simpl.
Qed.

Lemma record_channels_app ks1 : forall ks2 i d,
  record_channels i (ks1 ++ ks2) d
  = record_channels (i + Z.of_nat (length ks1)) ks2 (record_channels i ks1 d).
Proof.
  induction ks1 as [|k ks1 IH]; intros ks2 i d; simpl.
  - by rewrite Z.add_0_r.
  - rewrite IH. f_equal. lia.
Qed.

(** The loop: the references it went through before it stopped all have a
    kind and are recorded; it stops with 0 after [n] of them, or earlier
    with a negative code and one message at the first reference without a
    kind. *)
Lemma loop_outcome driver n : forall i s rc s',
  0 <= i ->
  parse_dma_nodes_loop driver n i s = Some (rc, s') ->
  exists ks,
    (forall (j : nat) k,
       ks !! j = Some k -> reference_kind driver (i + Z.of_nat j) = Some k) /\
    (length ks = 0 \/
     Z.to_nat i + length ks <= length (channels (dev s)))%nat /\
    dev s' = record_channels i ks (dev s) /\
    ((rc = 0 /\ length ks = n /\ klog s' = klog s) \/
     (rc < 0 /\ (length ks < n)%nat /\
      reference_kind driver (i + Z.of_nat (length ks)) = None /\
      exists e, klog s' = klog s ++ [e])).
Proof.
  induction n as [|n IH]; intros i s rc s' Hi H; simpl in H.
  - injection H as <- <-. exists []. simpl. split_and!; try done; try lia.
    by left.
  - unfold bind in H.
    destruct (parse_dma_nodes_body driver i s) as [[r s1]|] eqn:E; [|done].
    apply body_outcome in E
      as [(rc1 & e & -> & Hrc & Hnone & Hdev & Hlog)
         |(k & c & -> & Hk & Hc & ->)].
    + injection H as <- <-. exists []. simpl. rewrite Z.add_0_r.
      split_and!; try done; try lia. right. split_and!; try done; try lia.
      by exists e.
    + apply IH in H as (ks & Hks & Hlen & Hdev & Hend); [|lia].
      cbn [dev klog] in Hlen, Hdev, Hend.
      rewrite record_channel_channels, length_insert in Hlen.
      exists (k :: ks). simpl. split_and!.
      * intros [|j] k' Hj; simpl in Hj.
        -- injection Hj as <-. by rewrite Z.add_0_r.
        -- replace (i + Z.of_nat (S j)) with (i + 1 + Z.of_nat j) by lia.
           by apply Hks.
      * apply lookup_lt_Some in Hc. right. lia.
      * done.
      * destruct Hend as [(-> & <- & Hl)|(Hrc & Hlt & Hnone & e & Hl)].
        -- by left.
        -- right. split_and!; try done; try lia.
           ++ replace (i + Z.of_nat (S (length ks)))
                with (i + 1 + Z.of_nat (length ks)) by lia. done.
           ++ by exists e.
Qed.

Lemma parse_dma_nodes_outcome pdev s rc s' :
  axidma_of_parse_dma_nodes pdev s = Some (rc, s') ->
  exists ks,
    declares pdev ks /\
    (length ks <= length (channels (dev s)))%nat /\
    dev s' = record_channels 0 ks (reset_counts (dev s)) /\
    ((rc = 0 /\ length ks = Z.to_nat (num_chans (dev s)) /\
      klog s' = klog s) \/
     (rc < 0 /\ (length ks < Z.to_nat (num_chans (dev s)))%nat /\
      reference_kind (of_node pdev) (Z.of_nat (length ks)) = None /\
      exists e, klog s' = klog s ++ [e])).
Proof.
  destruct s as [d l]. rewrite parse_dma_nodes_start. intros H.
  apply loop_outcome in H as (ks & Hks & Hlen & Hdev & Hend); [|done].
  exists ks. simpl in *. split_and!; try done. lia.
Qed.

Lemma count_channel_base k d :
  dma_base_vaddr (count_channel k d) = dma_base_vaddr d.
Proof. by destruct k as [[] []]. Qed.

Lemma record_channels_base ks : forall i d,
  dma_base_vaddr (record_channels i ks d) = dma_base_vaddr d.
Proof.
  induction ks as [|k ks IH]; intros i d; simpl; [done|].
  rewrite IH. unfold record_channel. simpl. apply count_channel_base.
Qed.

Lemma device_eq (d1 d2 : axidma_device) :
  num_dma_tx_chans d1 = num_dma_tx_chans d2 ->
  num_dma_rx_chans d1 = num_dma_rx_chans d2 ->
  num_vdma_tx_chans d1 = num_vdma_tx_chans d2 ->
  num_vdma_rx_chans d1 = num_vdma_rx_chans d2 ->
  num_chans d1 = num_chans d2 ->
  channels d1 = channels d2 ->
  dma_base_vaddr d1 = dma_base_vaddr d2 ->
  d1 = d2.
Proof. destruct d1, d2. simpl. by intros -> -> -> -> -> -> ->. Qed.

(** ** What a caller can rely on *)

(** X1. Whatever the device tree, a run of [axidma_of_parse_dma_nodes]
    ends in one of two ways: it returns 0 and has logged nothing, or it
    returns a negative code and has logged exactly one message. *)
Theorem resolve_reports_each_failure_once (pdev : platform_device)
    (s s' : kstate) (rc : Z) :
  axidma_of_parse_dma_nodes pdev s = Some (rc, s') ->
  (rc = 0 /\ klog s' = klog s) \/
  (rc < 0 /\ exists e, klog s' = klog s ++ [e]).
Proof.
  intros H. apply parse_dma_nodes_outcome in H
    as (ks & _ & _ & _ & [(-> & _ & Hl)|(Hrc & _ & _ & e & Hl)]).
  - by left.
  - right. split; [done|]. by exists e.
Qed.

Lemma resolve_reports_each_failure_once_witness :
  (- EINVAL = 0 /\
   klog {| dev := record_channels 0 [(AXIDMA_DMA, AXIDMA_WRITE)]
                    (reset_counts example_device);
           klog := [(Some "axidma-chrdev", MsgChannelArgInvalid 1)] |}
   = klog (entry example_device)) \/
  (- EINVAL < 0 /\
   exists e,
     klog {| dev := record_channels 0 [(AXIDMA_DMA, AXIDMA_WRITE)]
                      (reset_counts example_device);
             klog := [(Some "axidma-chrdev", MsgChannelArgInvalid 1)] |}
     = klog (entry example_device) ++ [e]).
Proof.
  apply (resolve_reports_each_failure_once bad_selector_tree
           (entry example_device)).
  reflexivity.
Defined.

(** X2. Whatever the device tree and whether the run succeeds or fails,
    [axidma_of_parse_dma_nodes] leaves [num_chans], [dma_base_vaddr] and
    the size of the channel array as they were. *)
Theorem resolve_keeps_layout (pdev : platform_device) (s s' : kstate)
    (rc : Z) :
  axidma_of_parse_dma_nodes pdev s = Some (rc, s') ->
  num_chans (dev s') = num_chans (dev s) /\
  dma_base_vaddr (dev s') = dma_base_vaddr (dev s) /\
  length (channels (dev s')) = length (channels (dev s)).
Proof.
  intros H. apply parse_dma_nodes_outcome in H as (ks & _ & _ & -> & _).
  by rewrite record_channels_num_chans, record_channels_base,
    record_channels_length.
Qed.

Lemma resolve_keeps_layout_witness :
  let d' := record_channels 0 [(AXIDMA_DMA, AXIDMA_WRITE);
                                (AXIDMA_DMA, AXIDMA_READ)]
              (reset_counts example_device) in
  num_chans (dev (entry d')) = num_chans (dev (entry example_device)) /\
  dma_base_vaddr (dev (entry d'))
  = dma_base_vaddr (dev (entry example_device)) /\
  length (channels (dev (entry d')))
  = length (channels (dev (entry example_device))).
Proof.
  intros d'.
  apply (resolve_keeps_layout tx_rx_tree (entry example_device)
           (entry d') 0).
  reflexivity.
Defined.

(** X3. Whatever the device tree and whether the run succeeds or fails,
    [axidma_of_parse_dma_nodes] stores to no descriptor at an index of
    [num_chans] or above. *)
Theorem resolve_stays_below_num_chans (pdev : platform_device)
    (s s' : kstate) (rc : Z) (j : nat) :
  axidma_of_parse_dma_nodes pdev s = Some (rc, s') ->
  (Z.to_nat (num_chans (dev s)) <= j)%nat ->
  channels (dev s') !! j = channels (dev s) !! j.
Proof.
  intros H Hj. apply parse_dma_nodes_outcome in H
    as (ks & _ & _ & -> & Hend).
  rewrite record_channels_lookup_other; [done|done|].
  right. simpl. destruct Hend as [(_ & ? & _)|(_ & ? & _)]; lia.
Qed.

Lemma resolve_stays_below_num_chans_witness :
  let d' := record_channels 0 [(AXIDMA_VDMA, AXIDMA_READ)]
              (reset_counts (with_num_chans 1 example_device)) in
  channels (dev (entry d')) !! 1%nat
  = channels (dev (entry (with_num_chans 1 example_device))) !! 1%nat.
Proof.
  intros d'.
  apply (resolve_stays_below_num_chans vdma_rx_tree
           (entry (with_num_chans 1 example_device)) (entry d') 0 1).
  - reflexivity.
  - simpl. lia.
Defined.

Lemma take_recorded ks d :
  (length ks <= length (channels d))%nat ->
  take (length ks) (channels (record_channels 0 ks d))
  = imap (fun i k => descriptor (Z.of_nat i) k) ks.
Proof.
  intros Hlen. apply list_eq. intros j. rewrite list_lookup_imap.
  destruct (ks !! j) as [k|] eqn:Hj; simpl.
  - rewrite lookup_take_lt by (by eapply lookup_lt_Some).
    apply (record_channels_lookup ks 0 d j k); [lia | simpl; lia | done].
  - apply lookup_take_ge. by apply lookup_ge_None.
Qed.

(** X4. A return code of 0 vouches for the device tree: whenever
    [axidma_of_parse_dma_nodes] returns 0, each of the first [num_chans]
    references of ['dmas'] resolves, has a first argument of 0 or 1 and
    selects a channel node of a DMA core with one or two children whose
    type tag is in the vocabulary, and the first [num_chans] descriptors
    are those channels in the order of the references. *)
Theorem resolve_success_is_sound (pdev : platform_device) (s s' : kstate) :
  axidma_of_parse_dma_nodes pdev s = Some (0, s') ->
  exists ks,
    length ks = Z.to_nat (num_chans (dev s)) /\
    declares pdev ks /\
    take (length ks) (channels (dev s'))
    = imap (fun i k => descriptor (Z.of_nat i) k) ks.
Proof.
  intros H. apply parse_dma_nodes_outcome in H
    as (ks & Hks & Hlen & -> & [(_ & Hn & _)|(Hrc & _)]); [|lia].
  exists ks. split_and!; try done. by apply take_recorded.
Qed.

Lemma resolve_success_is_sound_witness :
  exists ks,
    length ks = Z.to_nat (num_chans (dev (entry example_device))) /\
    declares tx_rx_tree ks /\
    take (length ks)
      (channels (dev (entry (record_channels 0
                               [(AXIDMA_DMA, AXIDMA_WRITE);
                                (AXIDMA_DMA, AXIDMA_READ)]
                               (reset_counts example_device)))))
    = imap (fun i k => descriptor (Z.of_nat i) k) ks.
Proof.
  apply (resolve_success_is_sound tx_rx_tree (entry example_device)).
  reflexivity.
Defined.

Lemma record_channels_again ks d :
  (length ks <= length (channels d))%nat ->
  record_channels 0 ks (reset_counts (record_channels 0 ks (reset_counts d)))
  = record_channels 0 ks (reset_counts d).
Proof.
  intros Hlen.
  pose proof (record_channels_counters ks 0 (reset_counts d)) as Hc1.
  pose proof (record_channels_counters ks 0
    (reset_counts (record_channels 0 ks (reset_counts d)))) as Hc2.
  cbv zeta in Hc1, Hc2.
  destruct Hc1 as (A1 & B1 & C1 & D1), Hc2 as (A2 & B2 & C2 & D2).
  apply device_eq.
  - rewrite A1, A2. done.
  - rewrite B1, B2. done.
  - rewrite C1, C2. done.
  - rewrite D1, D2. done.
  - rewrite !record_channels_num_chans. simpl.
    by rewrite record_channels_num_chans.
  - apply list_eq. intros j.
    destruct (decide (j < length ks)%nat) as [Hj|Hj].
    + destruct (lookup_lt_is_Some_2 ks j Hj) as [k Hk].
      rewrite (record_channels_lookup ks 0 _ j k); [|lia| |done].
      * by rewrite (record_channels_lookup ks 0 _ j k); [|lia|simpl; lia|done].
      * simpl. rewrite record_channels_length. simpl. lia.
    + rewrite !record_channels_lookup_other by (simpl; lia). simpl.
      by rewrite record_channels_lookup_other by (simpl; lia).
  - rewrite !record_channels_base. simpl. by rewrite record_channels_base.
Qed.

(** X5. Running the parser again on the device structure a successful run
    left behind returns 0 again and changes nothing. *)
Theorem resolve_idempotent (pdev : platform_device) (s s' : kstate) :
  num_chans (dev s) <= INT_MAX ->
  axidma_of_parse_dma_nodes pdev s = Some (0, s') ->
  axidma_of_parse_dma_nodes pdev s' = Some (0, s').
Proof.
  intros Hmax H. apply parse_dma_nodes_outcome in H
    as (ks & Hks & Hlen & Hdev & [(_ & Hn & Hlog)|(Hrc & _)]); [|lia].
  destruct s' as [d' l']. simpl in Hdev, Hlog. subst d' l'.
  rewrite parse_dma_nodes_start, record_channels_num_chans. simpl num_chans.
  rewrite <- Hn, <- (Nat.add_0_r (length ks)).
  rewrite loop_records; cbn [dev klog parse_dma_nodes_loop].
  - unfold ret. by rewrite record_channels_again.
  - done.
  - intros j k Hj. by apply Hks.
  - simpl. rewrite record_channels_length. simpl. lia.
  - apply reset_counts_headroom. unfold INT_MAX in *. lia.
Qed.

Lemma resolve_idempotent_witness :
  let s' := entry (record_channels 0 [(AXIDMA_DMA, AXIDMA_WRITE);
                                      (AXIDMA_DMA, AXIDMA_READ)]
                     (reset_counts example_device)) in
  axidma_of_parse_dma_nodes tx_rx_tree s' = Some (0, s').
Proof.
  intros s'.
  apply (resolve_idempotent tx_rx_tree (entry example_device) s').
  - vm_compute. discriminate.
  - reflexivity.
Defined.

Lemma kinds_of_descriptors (g : nat -> Z) ks :
  (fun c => (type c, dir c)) <$> imap (fun i k => descriptor (g i) k) ks = ks.
Proof.
  apply list_eq. intros j. rewrite list_lookup_fmap, list_lookup_imap.
  destruct (ks !! j) as [[t r]|]; done.
Qed.

(** X6. After a successful run the counters agree with the descriptor
    table as follows: [num_dma_tx_chans] and [num_vdma_tx_chans] are the
    numbers of write descriptors of their engine type among the first
    [num_chans] descriptors, [num_dma_rx_chans] is the number of read
    descriptors of both engine types together, and [num_vdma_rx_chans]
    is 0. *)
Theorem counters_after_success (pdev : platform_device) (s s' : kstate) :
  axidma_of_parse_dma_nodes pdev s = Some (0, s') ->
  let kinds :=
    (fun c => (type c, dir c))
      <$> take (Z.to_nat (num_chans (dev s))) (channels (dev s')) in
  num_dma_tx_chans (dev s') = count_kind (AXIDMA_DMA, AXIDMA_WRITE) kinds /\
  num_vdma_tx_chans (dev s') = count_kind (AXIDMA_VDMA, AXIDMA_WRITE) kinds /\
  num_dma_rx_chans (dev s')
  = count_kind (AXIDMA_DMA, AXIDMA_READ) kinds
    + count_kind (AXIDMA_VDMA, AXIDMA_READ) kinds /\
  num_vdma_rx_chans (dev s') = 0.
Proof.
  intros H kinds. apply parse_dma_nodes_outcome in H
    as (ks & Hks & Hlen & Hdev & [(_ & Hn & _)|(Hrc & _)]); [|lia].
  assert (kinds = ks) as ->.
  { unfold kinds. rewrite <- Hn, Hdev, take_recorded by done.
    apply kinds_of_descriptors. }
  rewrite Hdev.
  destruct (record_channels_counters ks 0 (reset_counts (dev s)))
    as (-> & -> & -> & ->).
  simpl. split_and!; lia.
Qed.

Lemma counters_after_success_witness :
  let d' := record_channels 0 [(AXIDMA_VDMA, AXIDMA_READ)]
              (reset_counts (with_num_chans 1 example_device)) in
  let kinds :=
    (fun c => (type c, dir c))
      <$> take (Z.to_nat (num_chans
                            (dev (entry (with_num_chans 1 example_device)))))
               (channels (dev (entry d'))) in
  num_dma_tx_chans (dev (entry d'))
  = count_kind (AXIDMA_DMA, AXIDMA_WRITE) kinds /\
  num_vdma_tx_chans (dev (entry d'))
  = count_kind (AXIDMA_VDMA, AXIDMA_WRITE) kinds /\
  num_dma_rx_chans (dev (entry d'))
  = count_kind (AXIDMA_DMA, AXIDMA_READ) kinds
    + count_kind (AXIDMA_VDMA, AXIDMA_READ) kinds /\
  num_vdma_rx_chans (dev (entry d')) = 0.
Proof.
  intros d'.
  apply (counters_after_success vdma_rx_tree
           (entry (with_num_chans 1 example_device)) (entry d')).
  reflexivity.
Defined.

Lemma parse_channel_selector dma_node channel chan :
  channel <> 1 ->
  axidma_of_parse_channel dma_node channel chan
  = axidma_of_parse_channel dma_node 0 chan.
Proof.
  intros Hne. unfold axidma_of_parse_channel.
  by destruct (Z.eqb_spec channel 1).
Qed.

(** X7. [axidma_of_parse_channel] is all or nothing, for every node and
    every value of [channel]. Either it returns [-EINVAL], has logged one
    message and has stored nothing; or it returns 0, has logged nothing, and
    has changed only the descriptor behind [chan], whose [channel_id] it
    keeps, and one of the counters, by one. *)
Theorem parse_channel_all_or_nothing (dma_node : option device_node)
    (channel : Z) (chan : nat) (s s' : kstate) (rc : Z) :
  axidma_of_parse_channel dma_node channel chan s = Some (rc, s') ->
  (rc = - EINVAL /\ dev s' = dev s /\ exists e, klog s' = klog s ++ [e]) \/
  (rc = 0 /\ klog s' = klog s /\
   (exists c c',
      channels (dev s) !! chan = Some c /\
      channels (dev s') !! chan = Some c' /\
      channel_id c' = channel_id c) /\
   (forall j, j <> chan -> channels (dev s') !! j = channels (dev s) !! j) /\
   num_chans (dev s') = num_chans (dev s) /\
   num_dma_tx_chans (dev s') + num_dma_rx_chans (dev s')
     + num_vdma_tx_chans (dev s') + num_vdma_rx_chans (dev s')
   = num_dma_tx_chans (dev s) + num_dma_rx_chans (dev s)
     + num_vdma_tx_chans (dev s) + num_vdma_rx_chans (dev s) + 1).
Proof.
  assert (Hsel : forall sel, sel = 0 \/ sel = 1 ->
            axidma_of_parse_channel dma_node sel chan s = Some (rc, s') ->
            (rc = - EINVAL /\ dev s' = dev s /\
             exists e, klog s' = klog s ++ [e]) \/
            (rc = 0 /\ klog s' = klog s /\
             (exists c c',
                channels (dev s) !! chan = Some c /\
                channels (dev s') !! chan = Some c' /\
                channel_id c' = channel_id c) /\
             (forall j, j <> chan ->
                channels (dev s') !! j = channels (dev s) !! j) /\
             num_chans (dev s') = num_chans (dev s) /\
             num_dma_tx_chans (dev s') + num_dma_rx_chans (dev s')
               + num_vdma_tx_chans (dev s') + num_vdma_rx_chans (dev s')
             = num_dma_tx_chans (dev s) + num_dma_rx_chans (dev s)
               + num_vdma_tx_chans (dev s) + num_vdma_rx_chans (dev s) + 1)).
  { intros sel Hs H. apply parse_channel_outcome in H
      as [(_ & -> & Hdev & He)|(k & c & _ & -> & Hc & ->)]; [by left| |done].
    right. simpl. split_and!; try done.
    - eexists c, _. split_and!; [done| |].
      + apply list_lookup_insert_eq. by eapply lookup_lt_Some.
      + done.
    - intros j Hj. by apply list_lookup_insert_ne.
    - by destruct k as [[] []].
    - destruct k as [[] []]; simpl; lia. }
  intros H. destruct (decide (channel = 1)) as [->|Hne].
  - apply (Hsel 1); auto.
  - rewrite parse_channel_selector in H by done. apply (Hsel 0); auto.
Qed.

Lemma parse_channel_all_or_nothing_witness :
  (- EINVAL = - EINVAL /\
   dev {| dev := example_device;
          klog := [(None, MsgCompatibleMissing)] |}
   = dev (entry example_device) /\
   exists e,
     klog {| dev := example_device;
             klog := [(None, MsgCompatibleMissing)] |}
     = klog (entry example_device) ++ [e]) \/
  (- EINVAL = 0 /\
   klog {| dev := example_device;
           klog := [(None, MsgCompatibleMissing)] |}
   = klog (entry example_device) /\
   (exists c c',
      channels (dev (entry example_device)) !! 0%nat = Some c /\
      channels (dev {| dev := example_device;
                       klog := [(None, MsgCompatibleMissing)] |}) !! 0%nat
      = Some c' /\
      channel_id c' = channel_id c) /\
   (forall j, j <> 0%nat ->
      channels (dev {| dev := example_device;
                       klog := [(None, MsgCompatibleMissing)] |}) !! j
      = channels (dev (entry example_device)) !! j) /\
   num_chans (dev {| dev := example_device;
                     klog := [(None, MsgCompatibleMissing)] |})
   = num_chans (dev (entry example_device)) /\
   num_dma_tx_chans example_device + num_dma_rx_chans example_device
     + num_vdma_tx_chans example_device + num_vdma_rx_chans example_device
   = num_dma_tx_chans (dev (entry example_device))
     + num_dma_rx_chans (dev (entry example_device))
     + num_vdma_tx_chans (dev (entry example_device))
     + num_vdma_rx_chans (dev (entry example_device)) + 1).
Proof.
  apply (parse_channel_all_or_nothing (Some axi_dma_tx) 1 0
           (entry example_device)).
  reflexivity.
Defined.

(** X8. With [num_chans] zero or negative the loop is not entered: the
    parser returns 0, sets the four counters to 0 and reads nothing from
    the device tree, which may even be absent. *)
Theorem resolve_without_channels (pdev : platform_device) (s : kstate) :
  num_chans (dev s) <= 0 ->
  axidma_of_parse_dma_nodes pdev s
  = Some (0, {| dev := reset_counts (dev s); klog := klog s |}).
Proof.
  intros Hn. destruct s as [d l]. rewrite parse_dma_nodes_start.
  simpl in *. by replace (Z.to_nat (num_chans d)) with 0%nat by lia.
Qed.

Lemma resolve_without_channels_witness :
  axidma_of_parse_dma_nodes {| of_node := None |}
    (entry (with_num_chans 0 example_device))
  = Some (0, {| dev := reset_counts (with_num_chans 0 example_device);
                klog := [] |}).
Proof.
  apply (resolve_without_channels {| of_node := None |}
           (entry (with_num_chans 0 example_device))).
  simpl. lia.
Defined.

(** X9. The code of a failed phandle lookup is passed on unchanged. When
    the references before index [length ks] have a kind and
    [of_parse_phandle_with_args] fails for that index with errno [e], the
    parser returns [- e] (not [-EINVAL]) with the message for that index,
    and the device structure holds the channels recorded before it. *)
Theorem resolve_passes_lookup_error_on (pdev : platform_device)
    (ks : list (axidma_type * axidma_dir)) (e : positive) (s : kstate) :
  declares pdev ks ->
  of_parse_phandle_with_args (of_node pdev) "dmas" "#dma-cells"
    (Z.of_nat (length ks)) = OfErr e ->
  Z.of_nat (length ks) < num_chans (dev s) ->
  (length ks <= length (channels (dev s)))%nat ->
  num_chans (dev s) <= INT_MAX ->
  axidma_of_parse_dma_nodes pdev s
  = Some (Z.neg e,
          {| dev := record_channels 0 ks (reset_counts (dev s));
             klog := klog s
                     ++ [(full_name <$> of_node pdev,
                          MsgPhandle (Z.of_nat (length ks)))] |}).
Proof.
  intros Hks He Hn Hlen Hmax. destruct s as [d l]. simpl in *.
  rewrite parse_dma_nodes_start.
  replace (Z.to_nat (num_chans d))
    with (length ks + S (Z.to_nat (num_chans d) - length ks - 1))%nat by lia.
  rewrite loop_records; cbn [dev klog]; try done; try lia.
  - rewrite Z.add_0_l. cbn [parse_dma_nodes_loop].
    unfold bind at 1, parse_dma_nodes_body. by rewrite He.
  - apply reset_counts_headroom. lia.
Qed.

Lemma resolve_passes_lookup_error_on_witness :
  axidma_of_parse_dma_nodes mismatched_tree (entry example_device)
  = Some (Z.neg 2,
          {| dev := record_channels 0 [(AXIDMA_DMA, AXIDMA_WRITE)]
                      (reset_counts (dev (entry example_device)));
             klog := klog (entry example_device)
                     ++ [(full_name <$> of_node mismatched_tree,
                          MsgPhandle (Z.of_nat 1))] |}).
Proof.
  apply (resolve_passes_lookup_error_on mismatched_tree
           [(AXIDMA_DMA, AXIDMA_WRITE)] 2 (entry example_device)).
  - intros [|j] k H; [|done]. injection H as <-. reflexivity.
  - reflexivity.
  - simpl. lia.
  - simpl. lia.
  - vm_compute. discriminate.
Defined.

(** ** Channel names *)

Lemma dma_name_found pdev p names index name s :
  of_find_property (of_node pdev) "dma-names" = Some p ->
  prop_strings p = inr names ->
  0 <= index ->
  names !! Z.to_nat index = Some name ->
  axidma_of_parse_dma_name pdev index s = Some ((0, Some name), s).
Proof.
  intros Hp Hs Hi Hj.
  unfold axidma_of_parse_dma_name, of_property_read_string_index.
  cbv zeta. rewrite Hp, Hs.
  destruct (Z.ltb_spec index 0); [lia|]. by rewrite Hj.
Qed.

(** X10. Name lookup reads the names list by position: when ['dma-names']
    reads as the string list [names], [axidma_of_parse_dma_name] for the
    index of an entry returns 0 with that entry and logs nothing. *)
Theorem dma_name_by_position (pdev : platform_device)
    (p : property device_node) (names : list string) (j : nat)
    (name : string) (s : kstate) :
  of_find_property (of_node pdev) "dma-names" = Some p ->
  prop_strings p = inr names ->
  names !! j = Some name ->
  axidma_of_parse_dma_name pdev (Z.of_nat j) s = Some ((0, Some name), s).
Proof.
  intros Hp Hs Hj.
  unfold axidma_of_parse_dma_name, of_property_read_string_index.
  cbv zeta. rewrite Hp, Hs.
  destruct (Z.ltb_spec (Z.of_nat j) 0); [lia|].
  by rewrite Nat2Z.id, Hj.
Qed.

Lemma dma_name_by_position_witness :
  axidma_of_parse_dma_name tx_rx_tree (Z.of_nat 1) (entry example_device)
  = Some ((0, Some "rx_channel"), entry example_device).
Proof.
  apply (dma_name_by_position tx_rx_tree
           (string_property ["tx_channel"; "rx_channel"])
           ["tx_channel"; "rx_channel"] 1 "rx_channel"
           (entry example_device)); reflexivity.
Defined.



Lemma num_channels_outcome pdev s n s' :
  axidma_of_num_channels pdev s = Some (n, s') ->
  (n = - EINVAL /\ dev s' = dev s /\ exists e, klog s' = klog s ++ [e]) \/
  (1 <= n /\ s' = s /\
   of_property_count_strings (of_node pdev) "dma-names" = n /\
   of_count_phandle_with_args (of_node pdev) "dmas" "#dma-cells" = n).
Proof.
  unfold axidma_of_num_channels. cbv zeta.
  destruct (of_find_property (of_node pdev) "dma-names");
    [|intros Hrun; injection Hrun as <- <-; left; simpl; eauto].
  destruct (of_find_property (of_node pdev) "dmas");
    [|intros Hrun; injection Hrun as <- <-; left; simpl; eauto].
  destruct (Z.ltb_spec (of_property_count_strings (of_node pdev) "dma-names")
              0); [intros Hrun; injection Hrun as <- <-; left; simpl; eauto|].
  destruct (Z.eqb_spec (of_property_count_strings (of_node pdev) "dma-names")
              0); [intros Hrun; injection Hrun as <- <-; left; simpl; eauto|].
  destruct (Z.ltb_spec
              (of_count_phandle_with_args (of_node pdev) "dmas" "#dma-cells")
              0); [intros Hrun; injection Hrun as <- <-; left; simpl; eauto|].
  destruct (Z.eqb_spec
              (of_count_phandle_with_args (of_node pdev) "dmas" "#dma-cells")
              0); [intros Hrun; injection Hrun as <- <-; left; simpl; eauto|].
  destruct (Z.eqb_spec
              (of_property_count_strings (of_node pdev) "dma-names")
              (of_count_phandle_with_args (of_node pdev) "dmas" "#dma-cells"));
    simpl; intros Hrun; injection Hrun as <- <-.
  - right. split_and!; try done. lia.
  - left. simpl. eauto.
Qed.

(** X12. The count of [axidma_of_num_channels] covers the names: when it
    returns a count [n] (a value that is not negative), every index from 0
    to [n - 1] has a name, that is, [axidma_of_parse_dma_name] returns 0
    for it with a string and logs nothing. *)
Theorem counted_channels_have_names (pdev : platform_device)
    (s s1 s2 : kstate) (n index : Z) :
  axidma_of_num_channels pdev s = Some (n, s1) ->
  0 <= n ->
  0 <= index < n ->
  exists name,
    axidma_of_parse_dma_name pdev index s2 = Some ((0, Some name), s2).
Proof.
  intros H Hn Hi. apply num_channels_outcome in H
    as [(-> & _)|(_ & _ & Hnames & _)]; [unfold EINVAL in Hn; lia|].
  unfold of_property_count_strings in Hnames.
  destruct (of_find_property (of_node pdev) "dma-names") as [p|] eqn:Hp;
    [|unfold EINVAL in Hnames; lia].
  destruct (prop_strings p) as [e|names] eqn:Hs; [lia|].
  destruct (lookup_lt_is_Some_2 names (Z.to_nat index)) as [name Hname];
    [lia|].
  exists name. eapply dma_name_found; [done|done|lia|done].
Qed.

Lemma counted_channels_have_names_witness :
  exists name,
    axidma_of_parse_dma_name tx_rx_tree 1 (entry example_device)
    = Some ((0, Some name), entry example_device).
Proof.
  apply (counted_channels_have_names tx_rx_tree (entry example_device)
           (entry example_device) (entry example_device) 2 1).
  - reflexivity.
  - lia.
  - lia.
Defined.

End OfOutcomes.

(** * Further properties of the character device *)
Section ChrdevSessions.
Import Chrdev Examples.

(** The open files of a device reached from its initialization all went
    through a successful [axidma_open]. *)
Lemma reachable_files dev cs : forall s,
  axidma_dev s = Some dev ->
  (forall fd f, files s !! fd = Some f ->
     private_data f = Some dev /\ Z.land (f_flags f) O_EXCL <> 0) ->
  forall fd f, files (run s cs) !! fd = Some f ->
    private_data f = Some dev /\ Z.land (f_flags f) O_EXCL <> 0.
Proof.
  induction cs as [|c cs IH]; intros s Hdev Hinv; simpl; [done|].
  apply IH.
  - by rewrite vfs_call_axidma_dev.
  - intros fd f. destruct c as [cap flags|fd']; simpl.
    + unfold axidma_open. simpl. destruct cap; simpl; [|by apply Hinv].
      destruct (Z.eqb_spec (Z.land flags O_EXCL) 0) as [E|E]; simpl;
        [by apply Hinv|].
      intros [[_ <-]|[_ Hf]]%lookup_insert_Some; [by simpl|by eapply Hinv].
    + destruct (files s !! fd') eqn:E; simpl; [|by apply Hinv].
      intros [_ Hf]%lookup_delete_Some. by eapply Hinv.
Qed.

(** X13. Opening and releasing again is a round trip: [axidma_release]
    undoes on the file structure what a successful [axidma_open] did, and
    on the device a successful open followed by the release of that file
    leaves the open files as they were. *)
Theorem open_release_round_trip (s : chrdev) (flags : Z) :
  Z.land flags O_EXCL <> 0 ->
  let f := {| f_flags := flags; private_data := None |} in
  axidma_release (snd (axidma_open true (axidma_dev s) f)) = (0, f) /\
  vfs_call (snd (vfs_call s (Open true flags)))
           (Release (fresh (dom (files s))))
  = (0, s).
Proof.
  intros H f. split.
  - unfold axidma_open, axidma_release. simpl.
    by destruct (Z.eqb_spec (Z.land flags O_EXCL) 0).
  - rewrite vfs_open_root_excl by done. simpl.
    rewrite lookup_insert_eq. simpl.
    rewrite delete_insert_id by (apply not_elem_of_dom, is_fresh).
    by destruct s.
Qed.

Lemma open_release_round_trip_witness :
  let f := {| f_flags := O_EXCL; private_data := None |} in
  axidma_release
    (snd (axidma_open true (axidma_dev (initialized example_device)) f))
  = (0, f) /\
  vfs_call (snd (vfs_call (initialized example_device) (Open true O_EXCL)))
           (Release (fresh (dom (files (initialized example_device)))))
  = (0, initialized example_device).
Proof.
  apply (open_release_round_trip (initialized example_device) O_EXCL).
  vm_compute. discriminate.
Defined.

(** X14. In every state reached from the initialized device by open and
    release calls, every open file holds the pointer to that device in its
    private data and was opened with [O_EXCL]. *)
Theorem open_files_hold_the_device (dev : axidma_device) (cs : list call)
    (fd : nat) (f : file) :
  files (run (initialized dev) cs) !! fd = Some f ->
  private_data f = Some dev /\ Z.land (f_flags f) O_EXCL <> 0.
Proof.
  apply reachable_files; [done|].
  intros fd' f' H. simpl in H. by rewrite lookup_empty in H.
Qed.

Lemma open_files_hold_the_device_witness :
  private_data {| f_flags := O_EXCL; private_data := Some example_device |}
  = Some example_device /\
  Z.land (f_flags {| f_flags := O_EXCL;
                     private_data := Some example_device |}) O_EXCL <> 0.
Proof.
  apply (open_files_hold_the_device example_device
           [Open false O_EXCL; Open true O_EXCL] 0).
  vm_compute. reflexivity.
Defined.



End ChrdevSessions.

(** * Registration and removal of the character device *)
Section ChrdevRegistration.
Import Chrdev ChrdevSetup Examples.

Lemma remove_one_head {A} `{EqDecision A} (x : A) (l : list A) :
  remove_one x (x :: l) = l.
Proof. simpl. by rewrite decide_True. Qed.

Lemma kernel_eta (k : kernel) :
  {| chrdev_regions := chrdev_regions k; classes := classes k;
     devices := devices k; cdevs := cdevs k |} = k.
Proof. by destruct k. Qed.

(** Every run of [axidma_chrdev_init]: all four calls were granted and
    the four objects are registered under the numbers and addresses stored
    in the device structure, or the function stopped at the first refusal
    with its errno and the kernel holds what it held before. *)
Lemma chrdev_init_outcome a dev cf k :
  (exists n c d,
     alloc_chrdev_region_ans a = inr n /\ class_create_ans a = Ptr c /\
     device_create_ans a = Ptr d /\ cdev_add_ans a = None /\
     axidma_chrdev_init a dev cf k
     = (0, Some dev,
        {| num_devices := num_devices cf; minor_num := minor_num cf;
           chrdev_name := chrdev_name cf; dev_num := n;
           dev_class := Ptr c; device := Ptr d;
           chrdev := {| ops_installed := true;
                        cdev_numbers := Some (n, num_devices cf) |} |},
        {| chrdev_regions := (n, num_devices cf) :: chrdev_regions k;
           classes := c :: classes k;
           devices := (c, n) :: devices k;
           cdevs := (n, num_devices cf) :: cdevs k |})) \/
  (exists e cf',
     axidma_chrdev_init a dev cf k = (Z.neg e, Some dev, cf', k) /\
     num_devices cf' = num_devices cf /\
     (alloc_chrdev_region_ans a = inl e \/
      class_create_ans a = ErrPtr e \/
      device_create_ans a = ErrPtr e \/
      cdev_add_ans a = Some e)).
Proof.
  unfold axidma_chrdev_init, alloc_chrdev_region, class_create,
    device_create, cdev_add, device_destroy, class_destroy,
    unregister_chrdev_region.
  destruct a as [[e|n] [e1|c] [e2|d] [e3|]]; simpl;
    rewrite ?decide_True by done; rewrite ?kernel_eta;
    try (right; eexists _, _; split_and!; [reflexivity|reflexivity|]; simpl;
         by eauto).
  left. by eexists n, c, d.
Qed.

(** X16. A failed [axidma_chrdev_init] unwinds completely: whenever it
    returns a code other than 0, the code is negative and the kernel holds
    exactly the registrations it held before the call, whichever of the
    four steps failed. The file-scope pointer [axidma_dev] is set to the
    device all the same. *)
Theorem chrdev_init_failure_unwinds (a : answers) (dev : axidma_device)
    (cf cf' : chrdev_fields) (k k' : kernel) (rc : Z)
    (p : option axidma_device) :
  axidma_chrdev_init a dev cf k = (rc, p, cf', k') ->
  rc <> 0 ->
  rc < 0 /\ k' = k /\ p = Some dev.
Proof.
  intros H Hrc.
  destruct (chrdev_init_outcome a dev cf k)
    as [(n & c & d & _ & _ & _ & _ & E)|(e & cf1 & E & _)];
    rewrite E in H; injection H as <- <- <- <-; [done|].
  split_and!; [lia|done|done].
Qed.

Lemma chrdev_init_failure_unwinds_witness :
  -12 < 0 /\ empty_kernel = empty_kernel /\
  Some example_device = Some example_device.
Proof.
  apply (chrdev_init_failure_unwinds device_refused example_device
           unregistered_fields
           (set_device (ErrPtr 12)
              (set_dev_class (Ptr 3489660928)
                 (set_dev_num 257949696 unregistered_fields)))
           empty_kernel empty_kernel (-12)
           (Some example_device)).
  - reflexivity.
  - vm_compute. discriminate.
Defined.

(** X17. When [axidma_chrdev_init] returns 0, the region, the class, the
    device and the character device are all registered, on top of what the
    kernel held, under the device number and the class stored in the
    device structure; the character device carries the driver's file
    operations; and [axidma_dev] points to the device. *)
Theorem chrdev_init_success_registers (a : answers) (dev : axidma_device)
    (cf cf' : chrdev_fields) (k k' : kernel) (p : option axidma_device) :
  axidma_chrdev_init a dev cf k = (0, p, cf', k') ->
  p = Some dev /\
  num_devices cf' = num_devices cf /\
  chrdev_regions k' = (dev_num cf', num_devices cf') :: chrdev_regions k /\
  IS_ERR (dev_class cf') = false /\
  classes k' = PTR_ERR (dev_class cf') :: classes k /\
  IS_ERR (device cf') = false /\
  devices k' = (PTR_ERR (dev_class cf'), dev_num cf') :: devices k /\
  ops_installed (chrdev cf') = true /\
  cdevs k' = (dev_num cf', num_devices cf') :: cdevs k.
Proof.
  intros H.
  destruct (chrdev_init_outcome a dev cf k)
    as [(n & c & d & _ & _ & _ & _ & E)|(e & cf1 & E & _)];
    rewrite E in H; [|injection H as H; lia].
  injection H as <- <- <-. by simpl.
Qed.

Lemma chrdev_init_success_registers_witness :
  let cf' :=
    {| num_devices := 1; minor_num := 0; chrdev_name := "axidma";
       dev_num := 257949696; dev_class := Ptr 3489660928;
       device := Ptr 3489665024;
       chrdev := {| ops_installed := true;
                    cdev_numbers := Some (257949696, 1) |} |} in
  let k' :=
    {| chrdev_regions := [(257949696, 1)]; classes := [3489660928];
       devices := [(3489660928, 257949696)];
       cdevs := [(257949696, 1)] |} in
  Some example_device = Some example_device /\
  num_devices cf' = num_devices unregistered_fields /\
  chrdev_regions k'
  = (dev_num cf', num_devices cf') :: chrdev_regions empty_kernel /\
  IS_ERR (dev_class cf') = false /\
  classes k' = PTR_ERR (dev_class cf') :: classes empty_kernel /\
  IS_ERR (device cf') = false /\
  devices k'
  = (PTR_ERR (dev_class cf'), dev_num cf') :: devices empty_kernel /\
  ops_installed (chrdev cf') = true /\
  cdevs k' = (dev_num cf', num_devices cf') :: cdevs empty_kernel.
Proof.
  intros cf' k'.
  apply (chrdev_init_success_registers all_granted example_device
           unregistered_fields cf' empty_kernel k' (Some example_device)).
  reflexivity.
Defined.

(** X18. Registration and removal are a round trip: after an
    [axidma_chrdev_init] that returned 0, [axidma_chrdev_exit] leaves the
    kernel with exactly the registrations it held before the init. *)
Theorem chrdev_init_exit_round_trip (a : answers) (dev : axidma_device)
    (cf cf' : chrdev_fields) (k k' : kernel) (p : option axidma_device) :
  axidma_chrdev_init a dev cf k = (0, p, cf', k') ->
  axidma_chrdev_exit cf' k' = k.
Proof.
  intros H.
  destruct (chrdev_init_outcome a dev cf k)
    as [(n & c & d & _ & _ & _ & _ & E)|(e & cf1 & E & _)];
    rewrite E in H; [|injection H as H; lia].
  injection H as <- <- <-.
  unfold axidma_chrdev_exit, cdev_del, device_destroy, class_destroy,
    unregister_chrdev_region. simpl.
  rewrite !decide_True by done. apply kernel_eta.
Qed.

Lemma chrdev_init_exit_round_trip_witness :
  axidma_chrdev_exit
    {| num_devices := 1; minor_num := 0; chrdev_name := "axidma";
       dev_num := 257949696; dev_class := Ptr 3489660928;
       device := Ptr 3489665024;
       chrdev := {| ops_installed := true;
                    cdev_numbers := Some (257949696, 1) |} |}
    {| chrdev_regions := [(257949696, 1)]; classes := [3489660928];
       devices := [(3489660928, 257949696)];
       cdevs := [(257949696, 1)] |}
  = empty_kernel.
Proof.
  apply (chrdev_init_exit_round_trip all_granted example_device
           unregistered_fields _ empty_kernel _ (Some example_device)).
  reflexivity.
Defined.

End ChrdevRegistration.
